(** * The activities page script (src/static/app.js)

    A shallow embedding of the browser-side script: the DOM nodes the script
    touches form an explicit page state, every function of the script is a
    computation in a small state-and-exception monad over that state, and
    the browser's event loop is a step function over events (page load, form
    submissions, settled requests, elapsed time).

    Conventions of the embedding:
    - text is a byte string holding the UTF-8 form of the script's text;
      the values of the signup inputs, which go through
      [encodeURIComponent], are sequences of UTF-16 code units, so that a
      value with an unpaired surrogate can be written down;
    - JSON numbers are the safe integers (of magnitude at most 2^53 - 1),
      on which the script's arithmetic on doubles is followed exactly;
    - the host document is not part of the script; it is assumed to provide
      the elements the script reads ([activitiesList], [activitySelect],
      [signupForm], [messageDiv], the two forms and their inputs). *)

From Stdlib Require Import ZArith NArith DecimalString Ascii.
From stdpp Require Import gmap strings list.

#[local] Set Warnings "-register-all".
#[local] Open Scope Z_scope.

(** ** JavaScript values *)

Definition MAX_SAFE_INTEGER : Z := 9007199254740991.

(** A number of the embedding: an integer that a double holds exactly and
    prints digit for digit. *)
Record safe_integer := {
  integer : Z;
  integer_safe : (Z.abs integer <=? MAX_SAFE_INTEGER) = true;
}.

(** The values the script handles: what [response.json()] yields, plus
    [undefined], the result of reading a property that is not there.
    An object is a finite map from property names to values. *)
Inductive value :=
| VUndefined
| VNull
| VBool (b : bool)
| VNum (n : safe_integer)
| VStr (s : string)
| VArr (items : list value)
| VObj (fields : gmap string value).

(** Results of arithmetic: an integer, or [NaN]. *)
Inductive number :=
| Int (z : Z)
| NaN.

Definition Z_to_string (z : Z) : string := NilZero.string_of_int (Z.to_int z).

(** Number::toString on the results the script computes: integers below
    2^54 in magnitude print as their decimal digits. *)
Definition number_to_string (x : number) : string :=
  match x with
  | Int z => Z_to_string z
  | NaN => "NaN"
  end.

(** ToString; [None] stands for the TypeError it throws.
    - An object parsed from JSON inherits [Object.prototype.toString] and
      prints as "[object Object]", unless it has a property of its own
      named [toString]: that property is not a function, the inherited
      [valueOf] returns the object itself, and the conversion throws.
    - [Array.prototype.toString] joins the elements with commas, printing
      [null] and [undefined] elements as the empty string and converting
      the others, which may throw. *)
Fixpoint to_string (v : value) : option string :=
  match v with
  | VUndefined => Some "undefined"
  | VNull => Some "null"
  | VBool true => Some "true"
  | VBool false => Some "false"
  | VNum n => Some (Z_to_string (integer n))
  | VStr s => Some s
  | VArr items =>
      (fix join (l : list value) : option string :=
         match l with
         | [] => Some ""
         | x :: rest =>
             let piece :=
               match x with
               | VUndefined | VNull => Some ""
               | _ => to_string x
               end in
             match piece with
             | None => None
             | Some first =>
                 match rest with
                 | [] => Some first
                 | _ :: _ =>
                     match join rest with
                     | None => None
                     | Some others => Some (first +:+ "," +:+ others)
                     end
                 end
             end
         end) items
  | VObj fields =>
      match fields !! "toString" with
      | Some _ => None
      | None => Some "[object Object]"
      end
  end.

(** ToBoolean. *)
Definition truthy (v : value) : bool :=
  match v with
  | VUndefined | VNull => false
  | VBool b => b
  | VNum n => negb (integer n =? 0)
  | VStr s => negb (String.eqb s "")
  | VArr _ | VObj _ => true
  end.

(** [a || b] *)
Definition js_or (a b : value) : value := if truthy a then a else b.

(** What a DOM attribute of type [DOMString?] (such as [textContent])
    stores when the script assigns [v] to it: [null] and [undefined] give
    the empty string, anything else its ToString. *)
Definition nullable_DOMString (v : value) : option string :=
  match v with
  | VUndefined | VNull => Some ""
  | _ => to_string v
  end.

(** The double nearest to an integer below 2^54 in magnitude: integers up
    to 2^53 are doubles; beyond, the doubles are the even integers, and an
    odd integer, half way between two of them, goes to the one with the
    even significand, the multiple of 4. *)
Definition round_to_double (z : Z) : Z :=
  if Z.abs z <=? 2 ^ 53 then z
  else if Z.even z then z
  else if (z + 1) mod 4 =? 0 then z + 1
  else z - 1.

Section Arithmetic.

(** ECMAScript's StringToNumber, the reading of a piece of text as a
    number, belongs to the language runtime and is a parameter here:
    [None] for text that reads as [NaN].  It only comes into play when a
    participant count is text or an array; text that reads as a fraction
    or as a number beyond the safe integers is, like such a number itself,
    outside the embedding, and nothing below is stated about the number
    displayed for a count that is text. *)
Variable StringToNumber : string -> option safe_integer.

Definition text_to_number (s : string) : number :=
  match StringToNumber s with
  | Some n => Int (integer n)
  | None => NaN
  end.

(** ToNumber; [None] stands for the TypeError it throws.  An object goes
    through [valueOf], which gives no primitive, and then [toString]; an
    array through its [toString]. *)
Definition to_number (v : value) : option number :=
  match v with
  | VUndefined => Some NaN
  | VNull => Some (Int 0)
  | VBool true => Some (Int 1)
  | VBool false => Some (Int 0)
  | VNum n => Some (Int (integer n))
  | VStr s => Some (text_to_number s)
  | VArr _ =>
      match to_string v with
      | Some s => Some (text_to_number s)
      | None => None
      end
  | VObj _ =>
      match to_string v with
      | Some _ => Some NaN
      | None => None
      end
  end.

(** [a - b]: the left operand is converted first. *)
Definition js_minus (a b : value) : option number :=
  match to_number a with
  | None => None
  | Some x =>
      match to_number b with
      | None => None
      | Some y =>
          match x, y with
          | Int m, Int n => Some (Int (round_to_double (m - n)))
          | _, _ => Some NaN
          end
      end
  end.

End Arithmetic.

(** ** encodeURIComponent *)

(** The value of an input: UTF-16 code units. *)
Definition DOMString : Type := list N.

Definition is_high_surrogate (u : N) : bool := ((55296 <=? u) && (u <=? 56319))%N.

Definition is_low_surrogate (u : N) : bool := ((56320 <=? u) && (u <=? 57343))%N.

(** The code points of a string; [None] when a surrogate has no partner. *)
Fixpoint code_points (s : DOMString) : option (list N) :=
  match s with
  | [] => Some []
  | u :: rest =>
      if is_high_surrogate u then
        match rest with
        | v :: rest' =>
            if is_low_surrogate v
            then match code_points rest' with
                 | Some cps =>
                     Some ((65536 + (u - 55296) * 1024 + (v - 56320))%N :: cps)
                 | None => None
                 end
            else None
        | [] => None
        end
      else if is_low_surrogate u then None
      else match code_points rest with
           | Some cps => Some (u :: cps)
           | None => None
           end
  end.

(** The UTF-8 octets of a code point. *)
Definition utf8_octets (cp : N) : list N :=
  (if cp <? 128 then [cp]
   else if cp <? 2048 then [192 + cp / 64; 128 + cp mod 64]
   else if cp <? 65536 then
     [224 + cp / 4096; 128 + (cp / 64) mod 64; 128 + cp mod 64]
   else
     [240 + cp / 262144; 128 + (cp / 4096) mod 64; 128 + (cp / 64) mod 64;
      128 + cp mod 64])%N.

Definition string_of_octets (l : list N) : string :=
  fold_right (fun o s => String (ascii_of_N o) s) "" l.

(** The UTF-8 form of a string; [None] when it is not well formed. *)
Definition utf8 (s : DOMString) : option string :=
  match code_points s with
  | Some cps => Some (string_of_octets (concat (List.map utf8_octets cps)))
  | None => None
  end.

(** The characters [encodeURIComponent] leaves alone:
    letters, digits and [- _ . ! ~ * ' ( )]. *)
Definition unreserved (c : ascii) : bool :=
  let n := nat_of_ascii c in
  ((65 <=? n) && (n <=? 90))%nat || ((97 <=? n) && (n <=? 122))%nat
  || ((48 <=? n) && (n <=? 57))%nat
  || existsb (Nat.eqb n) [45; 95; 46; 33; 126; 42; 39; 40; 41]%nat.

Definition hex_digit (n : nat) : ascii :=
  if (n <? 10)%nat then ascii_of_nat (48 + n) else ascii_of_nat (55 + n).

(** Every other octet of the UTF-8 form becomes [%XX], in upper-case
    hexadecimal. *)
Definition percent_encode (c : ascii) : string :=
  let n := nat_of_ascii c in
  String "%" (String (hex_digit (n / 16)) (String (hex_digit (n mod 16)) "")).

Fixpoint escape_octets (s : string) : string :=
  match s with
  | EmptyString => ""
  | String c rest =>
      (if unreserved c then String c "" else percent_encode c)
      +:+ escape_octets rest
  end.

(** [encodeURIComponent(s)]; [None] stands for the URIError it throws on
    an unpaired surrogate.  The unreserved characters are ASCII and every
    octet of a longer UTF-8 sequence is above 127, so escaping the octets
    of the UTF-8 form one by one is what the builtin does code point by
    code point. *)
Definition encodeURIComponent (s : DOMString) : option string :=
  match utf8 s with
  | Some octets => Some (escape_octets octets)
  | None => None
  end.

(** The code units of a piece of ASCII text. *)
Fixpoint of_ascii (s : string) : DOMString :=
  match s with
  | EmptyString => []
  | String c rest => N_of_ascii c :: of_ascii rest
  end.
(** ** The page *)

(** The [div] built for one activity (lines 16-26). *)
Record card := {
  className : string;
  innerHTML : string;
}.

(** An [option] element of the dropdown (lines 31-33). *)
Record option_element := {
  option_value : string;
  option_textContent : string;
}.

(** A container filled through [innerHTML] and [appendChild]: the markup
    last assigned to [innerHTML] and the elements appended since. *)
Record container := {
  markup : string;
  appended : list card;
}.

(** A status area: its text and the tokens of its [class] attribute. *)
Record status_area := {
  textContent : string;
  classList : list string;
}.

Record register_fields := {
  reg_email : string;
  first_name : string;
  last_name : string;
  password : string;
}.

Record signup_fields := {
  email : DOMString;
  activity : DOMString;
}.

(** A call of [fetch]: the URL and the init object.  [body] holds the value
    handed to [JSON.stringify]. *)
Record request := {
  url : string;
  method : string;
  headers : list (string * string);
  body : option value;
}.

(** What a request settles to.  A response carries its status and the
    result of [response.json()]: [None] when the body is not JSON text. *)
Record response := {
  status : Z;
  json : option value;
}.

Inductive fetch_result :=
| NetworkFailure
| Responded (r : response).

(** [response.ok] *)
Definition ok (r : response) : bool := (200 <=? status r) && (status r <=? 299).

(** The async functions of the script, as they wait for their request. *)
Inductive task :=
| FetchActivities
| RegisterSubmit
| SignupSubmit.

(** The two arrow functions handed to [setTimeout] (lines 85 and 130). *)
Inductive callback :=
| HideRegMessage
| HideMessage.

Record page := {
  activitiesList : container;
  activitySelect : list option_element;
  registerForm : register_fields;
  regMessageDiv : status_area;
  signupForm : signup_fields;
  messageDiv : status_area;
  clock : N;
  timers : list (N * callback);
  requests : list request;
  pending : list task;
  console : list string;
}.

Definition with_activitiesList (f : container -> container) (p : page) : page :=
  {| activitiesList := f (activitiesList p); activitySelect := activitySelect p;
     registerForm := registerForm p; regMessageDiv := regMessageDiv p;
     signupForm := signupForm p; messageDiv := messageDiv p;
     clock := clock p; timers := timers p; requests := requests p;
     pending := pending p; console := console p |}.

Definition with_activitySelect (f : list option_element -> list option_element)
    (p : page) : page :=
  {| activitiesList := activitiesList p; activitySelect := f (activitySelect p);
     registerForm := registerForm p; regMessageDiv := regMessageDiv p;
     signupForm := signupForm p; messageDiv := messageDiv p;
     clock := clock p; timers := timers p; requests := requests p;
     pending := pending p; console := console p |}.

Definition with_registerForm (f : register_fields -> register_fields)
    (p : page) : page :=
  {| activitiesList := activitiesList p; activitySelect := activitySelect p;
     registerForm := f (registerForm p); regMessageDiv := regMessageDiv p;
     signupForm := signupForm p; messageDiv := messageDiv p;
     clock := clock p; timers := timers p; requests := requests p;
     pending := pending p; console := console p |}.

Definition with_regMessageDiv (f : status_area -> status_area) (p : page) : page :=
  {| activitiesList := activitiesList p; activitySelect := activitySelect p;
     registerForm := registerForm p; regMessageDiv := f (regMessageDiv p);
     signupForm := signupForm p; messageDiv := messageDiv p;
     clock := clock p; timers := timers p; requests := requests p;
     pending := pending p; console := console p |}.

Definition with_signupForm (f : signup_fields -> signup_fields) (p : page) : page :=
  {| activitiesList := activitiesList p; activitySelect := activitySelect p;
     registerForm := registerForm p; regMessageDiv := regMessageDiv p;
     signupForm := f (signupForm p); messageDiv := messageDiv p;
     clock := clock p; timers := timers p; requests := requests p;
     pending := pending p; console := console p |}.

Definition with_messageDiv (f : status_area -> status_area) (p : page) : page :=
  {| activitiesList := activitiesList p; activitySelect := activitySelect p;
     registerForm := registerForm p; regMessageDiv := regMessageDiv p;
     signupForm := signupForm p; messageDiv := f (messageDiv p);
     clock := clock p; timers := timers p; requests := requests p;
     pending := pending p; console := console p |}.

Definition with_clock (f : N -> N) (p : page) : page :=
  {| activitiesList := activitiesList p; activitySelect := activitySelect p;
     registerForm := registerForm p; regMessageDiv := regMessageDiv p;
     signupForm := signupForm p; messageDiv := messageDiv p;
     clock := f (clock p); timers := timers p; requests := requests p;
     pending := pending p; console := console p |}.

Definition with_timers (f : list (N * callback) -> list (N * callback))
    (p : page) : page :=
  {| activitiesList := activitiesList p; activitySelect := activitySelect p;
     registerForm := registerForm p; regMessageDiv := regMessageDiv p;
     signupForm := signupForm p; messageDiv := messageDiv p;
     clock := clock p; timers := f (timers p); requests := requests p;
     pending := pending p; console := console p |}.

Definition with_requests (f : list request -> list request) (p : page) : page :=
  {| activitiesList := activitiesList p; activitySelect := activitySelect p;
     registerForm := registerForm p; regMessageDiv := regMessageDiv p;
     signupForm := signupForm p; messageDiv := messageDiv p;
     clock := clock p; timers := timers p; requests := f (requests p);
     pending := pending p; console := console p |}.

Definition with_pending (f : list task -> list task) (p : page) : page :=
  {| activitiesList := activitiesList p; activitySelect := activitySelect p;
     registerForm := registerForm p; regMessageDiv := regMessageDiv p;
     signupForm := signupForm p; messageDiv := messageDiv p;
     clock := clock p; timers := timers p; requests := requests p;
     pending := f (pending p); console := console p |}.

Definition with_console (f : list string -> list string) (p : page) : page :=
  {| activitiesList := activitiesList p; activitySelect := activitySelect p;
     registerForm := registerForm p; regMessageDiv := regMessageDiv p;
     signupForm := signupForm p; messageDiv := messageDiv p;
     clock := clock p; timers := timers p; requests := requests p;
     pending := pending p; console := f (console p) |}.

(** ** DOM operations *)

(** [c.innerHTML = s] replaces whatever the container held. *)
Definition set_innerHTML (s : string) (c : container) : container :=
  {| markup := s; appended := [] |}.

Definition appendChild (x : card) (c : container) : container :=
  {| markup := markup c; appended := appended c ++ [x] |}.

Definition set_textContent (s : string) (a : status_area) : status_area :=
  {| textContent := s; classList := classList a |}.

(** [a.className = name], for a single class name: the [class] attribute
    becomes exactly that name. *)
Definition set_className (name : string) (a : status_area) : status_area :=
  {| textContent := textContent a; classList := [name] |}.

Definition classList_remove (token : string) (a : status_area) : status_area :=
  {| textContent := textContent a;
     classList := List.filter (fun t => negb (String.eqb t token)) (classList a) |}.

Definition classList_add (token : string) (a : status_area) : status_area :=
  {| textContent := textContent a;
     classList := if existsb (String.eqb token) (classList a)
                  then classList a else classList a ++ [token] |}.

(** An area is on display unless it carries the class [hidden]. *)
Definition hidden (a : status_area) : bool :=
  existsb (String.eqb "hidden") (classList a).

(** Modelled from the spec: the host document, which declares the inputs
    and their default values, is not part of the script; the spec has
    [reset()] put the form fields back to empty. *)
Definition reset_register (f : register_fields) : register_fields :=
  {| reg_email := ""; first_name := ""; last_name := ""; password := "" |}.

(** Modelled from the spec: as [reset_register], for the signup form. *)
Definition reset_signup (f : signup_fields) : signup_fields :=
  {| email := []; activity := [] |}.

(** ** Computations *)

Inductive exn :=
| TypeError
| SyntaxError
| URIError.

Inductive outcome (A : Type) :=
| Normal (a : A)
| Thrown (e : exn).
Arguments Normal {A} a.
Arguments Thrown {A} e.

(** A piece of script: it changes the page and either completes or throws.
    What was written to the page before a throw stays written. *)
Definition js (A : Type) : Type := page -> outcome A * page.

Definition ret {A} (a : A) : js A := fun p => (Normal a, p).

Definition bind {A B} (m : js A) (k : A -> js B) : js B :=
  fun p =>
    match m p with
    | (Normal a, p') => k a p'
    | (Thrown e, p') => (Thrown e, p')
    end.

Definition throw {A} (e : exn) : js A := fun p => (Thrown e, p).

(** [try { block } catch (error) { handler }] *)
Definition try_catch {A} (block : js A) (handler : exn -> js A) : js A :=
  fun p =>
    match block p with
    | (Normal a, p') => (Normal a, p')
    | (Thrown e, p') => handler e p'
    end.

Definition modify (f : page -> page) : js unit := fun p => (Normal tt, f p).

Definition read {A} (f : page -> A) : js A := fun p => (Normal (f p), p).

Declare Scope js_scope.
Delimit Scope js_scope with js.
Notation "x <- m ; k" := (bind m (fun x => k))
  (at level 20, m at level 100, k at level 200) : js_scope.
Notation "m ;; k" := (bind m (fun _ => k))
  (at level 100, k at level 200, right associativity) : js_scope.
#[local] Open Scope js_scope.

(** The value found under the name [k] in [v]; a property that is not
    there reads as [undefined].  (None of the names the script reads is a
    built-in property of a number, string, boolean, array or object.) *)
Definition own (k : string) (v : value) : value :=
  match v with
  | VObj fields => default VUndefined (fields !! k)
  | _ => VUndefined
  end.

(** A conversion that throws [e] when it fails. *)
Definition convert {A} (e : exn) (o : option A) : js A :=
  match o with
  | Some a => ret a
  | None => throw e
  end.

(** [v.k]: reading a property of [undefined] or [null] throws. *)
Definition prop (k : string) (v : value) : js value :=
  match v with
  | VUndefined | VNull => throw TypeError
  | _ => ret (own k v)
  end.

Fixpoint for_each (f : value -> js unit) (items : list value) : js unit :=
  match items with
  | [] => ret tt
  | x :: rest => f x ;; for_each f rest
  end.

(** [v.forEach(f)]: only an array has the method. *)
Definition forEach (v : value) (f : value -> js unit) : js unit :=
  match v with
  | VArr items => for_each f items
  | _ => throw TypeError
  end.

(** [fetch(...)]: the request leaves and the calling async function [t]
    waits for it to settle. *)
Definition fetch (rq : request) (t : task) : js unit :=
  modify (fun p => with_pending (fun l => l ++ [t])
                     (with_requests (fun l => l ++ [rq]) p)).

(** [await fetch(...)], once the request has settled: a network failure
    rejects with a [TypeError]. *)
Definition await_fetch (r : fetch_result) : js response :=
  match r with
  | NetworkFailure => throw TypeError
  | Responded resp => ret resp
  end.

(** [await response.json()] *)
Definition await_json (resp : response) : js value :=
  match json resp with
  | Some v => ret v
  | None => throw SyntaxError
  end.

Definition setTimeout (cb : callback) (delay : N) : js unit :=
  modify (fun p => with_timers (fun l => l ++ [((clock p + delay)%N, cb)]) p).

Definition console_error (label : string) : js unit :=
  modify (with_console (fun l => l ++ [label])).

(** ** The script *)

Definition LF : string := String "010" "".

Definition get_activities : request :=
  {| url := "/activities"; method := "GET"; headers := []; body := None |}.

(** The template literal of lines 21-26, with its line breaks and
    indentation. *)
Definition card_markup (name description schedule spotsLeft : string) : string :=
  LF +:+ "          <h4>" +:+ name +:+ "</h4>" +:+
  LF +:+ "          <p>" +:+ description +:+ "</p>" +:+
  LF +:+ "          <p><strong>Schedule:</strong> " +:+ schedule +:+ "</p>" +:+
  LF +:+ "          <p><strong>Availability:</strong> " +:+ spotsLeft
     +:+ " spots left</p>" +:+
  LF +:+ "        ".

Definition failed_to_load : string :=
  "<p>Failed to load activities. Please try again later.</p>".

(** [fetchActivities()], up to its first [await]: the request is sent. *)
Definition fetchActivities_start : js unit := fetch get_activities FetchActivities.

(** [handleUnregister(event)] (lines 44-46) has an empty body. *)
Definition handleUnregister (event : value) : js unit := ret tt.

(** The submit handler of the registration form up to its [await]
    (lines 50-69): the fields are read and the request is sent. *)
Definition registerForm_submit : js unit :=
  email <- read (fun p => reg_email (registerForm p)) ;
  firstName <- read (fun p => first_name (registerForm p)) ;
  lastName <- read (fun p => last_name (registerForm p)) ;
  password <- read (fun p => password (registerForm p)) ;
  fetch {| url := "/register";
           method := "POST";
           headers := [("Content-Type", "application/json")];
           body := Some (VObj (<["email" := VStr email]>
                              (<["first_name" := VStr firstName]>
                              (<["last_name" := VStr lastName]>
                              (<["password" := VStr password]> ∅))))) |}
        RegisterSubmit.

(** The rest of the handler (lines 71-93), run when the request settles. *)
Definition registerForm_resume (r : fetch_result) : js unit :=
  try_catch
    (response <- await_fetch r ;
     result <- await_json response ;
     (if ok response then
        modify (with_regMessageDiv (set_textContent "Registration successful!")) ;;
        modify (with_regMessageDiv (set_className "success")) ;;
        modify (with_registerForm reset_register)
      else
        detail <- prop "detail" result ;
        text <- convert TypeError
                  (nullable_DOMString (js_or detail (VStr "Registration failed"))) ;
        modify (with_regMessageDiv (set_textContent text)) ;;
        modify (with_regMessageDiv (set_className "error"))) ;;
     modify (with_regMessageDiv (classList_remove "hidden")) ;;
     setTimeout HideRegMessage 5000)
    (fun error =>
     modify (with_regMessageDiv (set_textContent "Failed to register. Please try again.")) ;;
     modify (with_regMessageDiv (set_className "error")) ;;
     modify (with_regMessageDiv (classList_remove "hidden")) ;;
     console_error "Error registering:").

(** The address of the signup request (lines 105-107), for an activity
    and an e-mail address given by their UTF-8 forms. *)
Definition signup_url (activity email : string) : string :=
  "/activities/" +:+ escape_octets activity +:+
  "/signup?email=" +:+ escape_octets email.

(** The [catch] block of the signup handler (lines 133-138). *)
Definition signupForm_catch (error : exn) : js unit :=
  modify (with_messageDiv (set_textContent "Failed to sign up. Please try again.")) ;;
  modify (with_messageDiv (set_className "error")) ;;
  modify (with_messageDiv (classList_remove "hidden")) ;;
  console_error "Error signing up:".

(** The submit handler of the signup form up to its [await]
    (lines 98-111).  The address is put together inside the [try] block:
    when [encodeURIComponent] throws, no request is sent and the [catch]
    block runs at once. *)
Definition signupForm_submit : js unit :=
  email <- read (fun p => email (signupForm p)) ;
  activity <- read (fun p => activity (signupForm p)) ;
  try_catch
    (id <- convert URIError (encodeURIComponent activity) ;
     mail <- convert URIError (encodeURIComponent email) ;
     fetch {| url := "/activities/" +:+ id +:+ "/signup?email=" +:+ mail;
              method := "POST"; headers := []; body := None |}
           SignupSubmit)
    signupForm_catch.

(** The rest of the handler (lines 113-138).  The call [fetchActivities()]
    of line 121 is not awaited: it sends its request and the handler goes
    on. *)
Definition signupForm_resume (r : fetch_result) : js unit :=
  try_catch
    (response <- await_fetch r ;
     result <- await_json response ;
     (if ok response then
        message <- prop "message" result ;
        text <- convert TypeError (nullable_DOMString message) ;
        modify (with_messageDiv (set_textContent text)) ;;
        modify (with_messageDiv (set_className "success")) ;;
        modify (with_signupForm reset_signup) ;;
        fetchActivities_start
      else
        detail <- prop "detail" result ;
        text <- convert TypeError
                  (nullable_DOMString (js_or detail (VStr "An error occurred"))) ;
        modify (with_messageDiv (set_textContent text)) ;;
        modify (with_messageDiv (set_className "error"))) ;;
     modify (with_messageDiv (classList_remove "hidden")) ;;
     setTimeout HideMessage 5000)
    signupForm_catch.

(** The bodies of the two timer callbacks (lines 86 and 131). *)
Definition run_callback (cb : callback) : js unit :=
  match cb with
  | HideRegMessage => modify (with_regMessageDiv (classList_add "hidden"))
  | HideMessage => modify (with_messageDiv (classList_add "hidden"))
  end.

Fixpoint run_callbacks (cbs : list (N * callback)) : js unit :=
  match cbs with
  | [] => ret tt
  | (_, cb) :: rest =>
      (* an exception in one callback does not stop the next *)
      try_catch (run_callback cb) (fun _ => ret tt) ;; run_callbacks rest
  end.

(** [ms] milliseconds go by: the timers that have come due fire, in the
    order they were set (all are set with the same delay, so this is the
    order of their due times), and leave the timer list. *)
Definition elapse (ms : N) : js unit :=
  modify (with_clock (fun t => (t + ms)%N)) ;;
  now <- read clock ;
  due <- read (fun p => List.filter (fun t => (fst t <=? now)%N) (timers p)) ;
  modify (with_timers (List.filter (fun t => negb (fst t <=? now)%N))) ;;
  run_callbacks due.

Section Script.

Variable StringToNumber : string -> option safe_integer.

(** The callback of [activities.forEach] (lines 15-35).  The template
    literal converts each value as it reaches it; [option.value] converts
    the [id] and [option.textContent] the [name]. *)
Definition render_activity (act : value) : js unit :=
  max_participants <- prop "max_participants" act ;
  current_participants <- prop "current_participants" act ;
  spotsLeft <- convert TypeError
                 (js_minus StringToNumber max_participants current_participants) ;
  name <- prop "name" act ;
  name_text <- convert TypeError (to_string name) ;
  description <- prop "description" act ;
  description_text <- convert TypeError (to_string description) ;
  schedule <- prop "schedule" act ;
  schedule_text <- convert TypeError (to_string schedule) ;
  let activityCard :=
    {| className := "activity-card";
       innerHTML := card_markup name_text description_text schedule_text
                      (number_to_string spotsLeft) |} in
  modify (with_activitiesList (appendChild activityCard)) ;;
  id <- prop "id" act ;
  value_text <- convert TypeError (to_string id) ;
  name' <- prop "name" act ;
  label <- convert TypeError (nullable_DOMString name') ;
  let option := {| option_value := value_text; option_textContent := label |} in
  modify (with_activitySelect (fun l => l ++ [option])).

(** [fetchActivities()] after its request has settled (lines 8-40). *)
Definition fetchActivities_resume (r : fetch_result) : js unit :=
  try_catch
    (response <- await_fetch r ;
     activities <- await_json response ;
     modify (with_activitiesList (set_innerHTML "")) ;;
     forEach activities render_activity)
    (fun error =>
     modify (with_activitiesList (set_innerHTML failed_to_load)) ;;
     console_error "Error fetching activities:").

(** ** The event loop *)

Inductive event :=
| DOMContentLoaded
| SubmitRegister
| SubmitSignup
| EditRegister (f : register_fields)
| EditSignup (f : signup_fields)
| Settled (i : nat) (r : fetch_result)
| Elapsed (ms : N).

Definition resume (t : task) (r : fetch_result) : js unit :=
  match t with
  | FetchActivities => fetchActivities_resume r
  | RegisterSubmit => registerForm_resume r
  | SignupSubmit => signupForm_resume r
  end.

(** One turn of the event loop.  [Settled i r]: the [i]-th request still
    under way settles to [r] and the function waiting for it goes on. *)
Definition dispatch (e : event) : js unit :=
  match e with
  | DOMContentLoaded => fetchActivities_start
  | SubmitRegister => registerForm_submit
  | SubmitSignup => signupForm_submit
  | EditRegister f => modify (with_registerForm (fun _ => f))
  | EditSignup f => modify (with_signupForm (fun _ => f))
  | Settled i r =>
      waiting <- read pending ;
      match waiting !! i with
      | Some t => modify (with_pending (delete i)) ;; resume t r
      | None => ret tt
      end
  | Elapsed ms => elapse ms
  end.

Definition step (p : page) (e : event) : page := snd (dispatch e p).

Definition run (events : list event) (p : page) : page := foldl step p events.

End Script.

(** ** Sample data *)

(** A page as the script may find it after a visitor filled in both forms:
    the list shows its loading text, both status areas are hidden. *)
Definition sample_page : page :=
  {| activitiesList := {| markup := "<p>Loading activities...</p>"; appended := [] |};
     activitySelect := [];
     registerForm := {| reg_email := "ann@example.org"; first_name := "Ann";
                        last_name := "Lee"; password := "s3cret" |};
     regMessageDiv := {| textContent := ""; classList := ["hidden"] |};
     signupForm := {| email := of_ascii "ann lee@example.org";
                      activity := of_ascii "1/2" |};
     messageDiv := {| textContent := ""; classList := ["hidden"] |};
     clock := 0; timers := []; requests := []; pending := []; console := [] |}.

(** The safe integer written [z]; the proof is a computation. *)
Notation "'#' z" := {| integer := z; integer_safe := eq_refl |}
  (at level 9, z at level 9, format "'#' z").

Definition chess : value :=
  VObj (<["id" := VNum #1]>
       (<["name" := VStr "Chess Club"]>
       (<["description" := VStr "Learn strategies"]>
       (<["schedule" := VStr "Fridays"]>
       (<["max_participants" := VNum #12]>
       (<["current_participants" := VNum #5]> ∅)))))).


(** A value that does not convert to text: an object with a property of
    its own named [toString]. *)
Definition unprintable : value := VObj {["toString" := VNum #1]}.

(** An activity whose [name] does not convert to text. *)
Definition odd_activity : value :=
  VObj (<["id" := VNum #2]>
       (<["name" := unprintable]>
       (<["max_participants" := VNum #3]>
       (<["current_participants" := VNum #1]> ∅)))).

(** An activity with a [name] and a [max_participants] only. *)
Definition art_club_fields : gmap string value :=
  <["name" := VStr "Art Club"]> (<["max_participants" := VNum #15]> ∅).

Definition http (code : Z) (v : value) : fetch_result :=
  Responded {| status := code; json := Some v |}.

(** A response whose body is not JSON text. *)
Definition http_no_json (code : Z) : fetch_result :=
  Responded {| status := code; json := None |}.

(** An instance of the runtime's reading of text as numbers for the sample
    runs.  No count in them is text, so no run consults it. *)
Definition no_text_numbers (s : string) : option safe_integer := None.

(** ** Vocabulary of the properties *)

Definition register_failed_text : string := "Failed to register. Please try again.".

Definition signup_failed_text : string := "Failed to sign up. Please try again.".

(** Undoing percent-escapes, to state that [encodeURIComponent] loses
    nothing. *)
Definition hex_value (c : ascii) : nat :=
  let n := nat_of_ascii c in
  if ((48 <=? n) && (n <=? 57))%nat then n - 48
  else if ((65 <=? n) && (n <=? 70))%nat then n - 55
  else 0.

Fixpoint percent_decode (s : string) : string :=
  match s with
  | EmptyString => ""
  | String "%" (String h (String l rest)) =>
      String (ascii_of_nat (16 * hex_value h + hex_value l)) (percent_decode rest)
  | String c rest => String c (percent_decode rest)
  end.

Fixpoint all_chars (f : ascii -> bool) (s : string) : bool :=
  match s with
  | EmptyString => true
  | String c rest => f c && all_chars f rest
  end.

Fixpoint occurs (c : ascii) (s : string) : bool :=
  match s with
  | EmptyString => false
  | String x rest => Ascii.eqb c x || occurs c rest
  end.

Fixpoint count_chars (f : ascii -> bool) (s : string) : nat :=
  match s with
  | EmptyString => 0
  | String c rest => (if f c then 1 else 0) + count_chars f rest
  end.

(** The characters of an encoded component: unreserved ones and the
    percent sign.  None of [/ ? # & = +] or a blank is among them. *)
Definition component_char (c : ascii) : bool := unreserved c || Ascii.eqb c "%".

Definition no_slash (c : ascii) : bool := negb (Ascii.eqb c "/").

(** Any value but [null] and [undefined] has properties to read. *)
Definition has_properties (v : value) : bool :=
  match v with
  | VUndefined | VNull => false
  | _ => true
  end.

(** ToString does not throw on the value. *)
Definition printable (v : value) : bool :=
  match to_string v with
  | Some _ => true
  | None => false
  end.

Definition is_array (v : value) : bool :=
  match v with
  | VArr _ => true
  | _ => false
  end.

(** The card that one element of the response gives rise to; [None] when
    reading or converting one of its values throws. *)
Definition card_of (StringToNumber : string -> option safe_integer) (v : value)
    : option card :=
  if has_properties v then
    match js_minus StringToNumber (own "max_participants" v)
            (own "current_participants" v),
          to_string (own "name" v),
          to_string (own "description" v),
          to_string (own "schedule" v) with
    | Some spots, Some name, Some description, Some schedule =>
        Some {| className := "activity-card";
                innerHTML := card_markup name description schedule
                               (number_to_string spots) |}
    | _, _, _, _ => None
    end
  else None.

(** The option of one element; [None] when converting its [id] or [name]
    throws. *)
Definition option_of (v : value) : option option_element :=
  if has_properties v then
    match to_string (own "id" v), nullable_DOMString (own "name" v) with
    | Some value, Some label =>
        Some {| option_value := value; option_textContent := label |}
    | _, _ => None
    end
  else None.

(** The callback gets through the element without throwing. *)
Definition renders (StringToNumber : string -> option safe_integer) (v : value)
    : bool :=
  match card_of StringToNumber v, option_of v with
  | Some _, Some _ => true
  | _, _ => false
  end.

(** The elements [forEach] gets through before the callback throws. *)
Fixpoint rendered (StringToNumber : string -> option safe_integer)
    (acts : list value) : list value :=
  match acts with
  | [] => []
  | v :: rest =>
      if renders StringToNumber v then v :: rendered StringToNumber rest else []
  end.

Definition alphanumeric (c : ascii) : bool :=
  let n := nat_of_ascii c in
  ((48 <=? n) && (n <=? 57))%nat || ((65 <=? n) && (n <=? 90))%nat
  || ((97 <=? n) && (n <=? 122))%nat.

(** An ampersand starts a character reference when a letter, a digit or
    [#] follows it. *)
Definition starts_reference (rest : string) : bool :=
  match rest with
  | String d _ => alphanumeric d || Ascii.eqb d "#"
  | EmptyString => false
  end.

(** Text that the HTML parser takes as it stands, wherever the template
    of the card puts it: no [<], no carriage return, no NUL, and no [&]
    that starts a character reference.  ("Chess & Checkers" is plain,
    "Chess &amp; Checkers" and "<b>Chess</b>" are not.) *)
Fixpoint plain (s : string) : bool :=
  match s with
  | EmptyString => true
  | String c rest =>
      negb (Ascii.eqb c "<" || Ascii.eqb c "013" || Ascii.eqb c "000")
      && negb (Ascii.eqb c "&" && starts_reference rest)
      && plain rest
  end.

(** The text a piece of markup displays -- the [textContent] of the nodes
    it parses to -- when the markup is made of tags without attributes
    around plain text: what stands outside the tags. *)
Fixpoint text_from (in_tag : bool) (markup : string) : string :=
  match markup with
  | EmptyString => ""
  | String c rest =>
      if in_tag then text_from (negb (Ascii.eqb c ">")) rest
      else if Ascii.eqb c "<" then text_from true rest
      else String c (text_from false rest)
  end.

Definition text_content (markup : string) : string := text_from false markup.

(** Whether the end of [markup] is inside a tag. *)
Fixpoint inside_tag (in_tag : bool) (markup : string) : bool :=
  match markup with
  | EmptyString => in_tag
  | String c rest =>
      inside_tag (if in_tag then negb (Ascii.eqb c ">") else Ascii.eqb c "<") rest
  end.

(** A value that prints as plain text. *)
Definition plain_text (v : value) : bool :=
  match to_string v with
  | Some t => plain t
  | None => false
  end.

(** A count of participants: a number that is not negative. *)
Definition is_count (v : value) : bool :=
  match v with
  | VNum n => 0 <=? integer n
  | _ => false
  end.

(** An activity: an object whose [name], [description] and [schedule]
    print as plain text, whose [id] prints, and whose two participant
    counts are counts. *)
Definition is_activity (v : value) : bool :=
  match v with
  | VObj _ =>
      plain_text (own "name" v) && plain_text (own "description" v)
      && plain_text (own "schedule" v) && printable (own "id" v)
      && is_count (own "max_participants" v)
      && is_count (own "current_participants" v)
  | _ => false
  end.

Definition hides_reg_message (t : N * callback) : bool :=
  match snd t with
  | HideRegMessage => true
  | HideMessage => false
  end.

Definition hides_message (t : N * callback) : bool :=
  match snd t with
  | HideRegMessage => false
  | HideMessage => true
  end.

(** What [fetchActivities] leaves alone: everything but the list, the
    dropdown and the console. *)
Definition outside_the_list_unchanged (p p' : page) : Prop :=
  registerForm p' = registerForm p
  /\ regMessageDiv p' = regMessageDiv p
  /\ signupForm p' = signupForm p
  /\ messageDiv p' = messageDiv p
  /\ clock p' = clock p
  /\ timers p' = timers p
  /\ requests p' = requests p
  /\ pending p' = pending p.

(** What the timer callbacks leave alone: everything but the classes of
    the two status areas. *)
Definition only_classes_may_differ (p p' : page) : Prop :=
  activitiesList p' = activitiesList p
  /\ activitySelect p' = activitySelect p
  /\ registerForm p' = registerForm p
  /\ signupForm p' = signupForm p
  /\ textContent (regMessageDiv p') = textContent (regMessageDiv p)
  /\ textContent (messageDiv p') = textContent (messageDiv p)
  /\ requests p' = requests p
  /\ pending p' = pending p
  /\ console p' = console p.

(** The registration was accepted: a response with [response.ok] true whose
    body is JSON. *)
Definition register_accepted (r : fetch_result) : bool :=
  match r with
  | NetworkFailure => false
  | Responded resp =>
      ok resp && match json resp with Some _ => true | None => false end
  end.

(** The signup was accepted: a response with [response.ok] true whose body
    is a JSON value with properties to read and a [message] that prints. *)
Definition signup_accepted (r : fetch_result) : bool :=
  match r with
  | NetworkFailure => false
  | Responded resp =>
      ok resp
      && match json resp with
         | Some body => has_properties body && printable (own "message" body)
         | None => false
         end
  end.

Definition empty_register_fields : register_fields :=
  {| reg_email := ""; first_name := ""; last_name := ""; password := "" |}.

(** The request a registration sends for the given field values. *)
Definition register_request (f : register_fields) : request :=
  {| url := "/register";
     method := "POST";
     headers := [("Content-Type", "application/json")];
     body := Some (VObj (<["email" := VStr (reg_email f)]>
                        (<["first_name" := VStr (first_name f)]>
                        (<["last_name" := VStr (last_name f)]>
                        (<["password" := VStr (password f)]> ∅))))) |}.

(** ** Proof steps *)

(** Unfolds the monad so that a run of the script computes. *)
Ltac js_unfold :=
  unfold try_catch, bind, ret, throw, modify, read, fetch, setTimeout,
    console_error, await_fetch, await_json, prop, convert in *.

(** Unfolds the field updates of the page. *)
Ltac page_goal :=
  unfold with_activitiesList, with_activitySelect, with_registerForm,
    with_regMessageDiv, with_signupForm, with_messageDiv, with_clock,
    with_timers, with_requests, with_pending, with_console,
    set_innerHTML, appendChild;
  cbn.

(** * Properties *)

(** ** The conversions on sample values *)

Example to_string_samples :
  to_string VUndefined = Some "undefined"
  /\ to_string VNull = Some "null"
  /\ to_string (VBool true) = Some "true"
  /\ to_string (VNum #(-42)) = Some "-42"
  /\ to_string (VNum #0) = Some "0"
  /\ to_string (VNum #9007199254740991) = Some "9007199254740991"
  /\ to_string (VArr []) = Some ""
  /\ to_string (VArr [VNum #1; VNull; VStr "a"; VUndefined]) = Some "1,,a,"
  /\ to_string (VArr [VArr [VNum #1; VNum #2]; VNum #3]) = Some "1,2,3"
  /\ to_string (VObj ∅) = Some "[object Object]"
  /\ to_string (VObj {["toString" := VNull]}) = None
  /\ to_string (VArr [VNum #1; unprintable]) = None.
Proof. vm_compute. auto 20. Qed.

Example truthy_samples :
  truthy VUndefined = false /\ truthy VNull = false
  /\ truthy (VBool false) = false /\ truthy (VNum #0) = false
  /\ truthy (VStr "") = false
  /\ truthy (VBool true) = true /\ truthy (VNum #(-1)) = true
  /\ truthy (VStr "0") = true /\ truthy (VArr []) = true
  /\ truthy (VObj ∅) = true.
Proof. vm_compute. auto 20. Qed.

Example nullable_DOMString_samples :
  nullable_DOMString VNull = Some ""
  /\ nullable_DOMString VUndefined = Some ""
  /\ nullable_DOMString (VStr "null") = Some "null"
  /\ nullable_DOMString (VBool false) = Some "false"
  /\ nullable_DOMString unprintable = None.
Proof. vm_compute. auto 10. Qed.

(** Differences of counts, among them two beyond 2^53, where a double
    holds the even integers only: 2^53 + 1 goes down to 2^53 and 2^53 + 3
    up to 2^53 + 4. *)
Example js_minus_samples :
  js_minus no_text_numbers (VNum #12) (VNum #5) = Some (Int 7)
  /\ js_minus no_text_numbers (VNum #5) (VNum #12) = Some (Int (-7))
  /\ js_minus no_text_numbers (VNum #12) VNull = Some (Int 12)
  /\ js_minus no_text_numbers (VNum #12) (VBool true) = Some (Int 11)
  /\ js_minus no_text_numbers (VNum #12) VUndefined = Some NaN
  /\ js_minus no_text_numbers (VObj ∅) (VNum #1) = Some NaN
  /\ js_minus no_text_numbers (VNum #1) unprintable = None
  /\ js_minus no_text_numbers (VNum #9007199254740991) (VNum #(-2))
     = Some (Int 9007199254740992)
  /\ js_minus no_text_numbers (VNum #9007199254740991) (VNum #(-4))
     = Some (Int 9007199254740996)
  /\ js_minus no_text_numbers (VNum #(-9007199254740991)) (VNum #2)
     = Some (Int (-9007199254740992))
  /\ js_minus no_text_numbers (VNum #9007199254740991) (VNum #(-9007199254740991))
     = Some (Int 18014398509481982).
Proof. vm_compute. auto 20. Qed.

Example ok_samples :
  ok {| status := 199; json := None |} = false
  /\ ok {| status := 200; json := None |} = true
  /\ ok {| status := 204; json := None |} = true
  /\ ok {| status := 299; json := None |} = true
  /\ ok {| status := 300; json := None |} = false
  /\ ok {| status := 404; json := None |} = false.
Proof. vm_compute. auto 10. Qed.

(** [encodeURIComponent] at the bounds of the UTF-8 lengths and of the
    surrogates. *)
Example encodeURIComponent_samples :
  encodeURIComponent (of_ascii "a b&c=d/e?f#g+h") = Some "a%20b%26c%3Dd%2Fe%3Ff%23g%2Bh"
  /\ encodeURIComponent (of_ascii "-_.!~*'()") = Some "-_.!~*'()"
  /\ encodeURIComponent (of_ascii "%") = Some "%25"
  /\ encodeURIComponent [127%N] = Some "%7F"
  /\ encodeURIComponent [128%N] = Some "%C2%80"
  /\ encodeURIComponent [2047%N] = Some "%DF%BF"
  /\ encodeURIComponent [2048%N] = Some "%E0%A0%80"
  /\ encodeURIComponent [55295%N] = Some "%ED%9F%BF"
  /\ encodeURIComponent [57344%N] = Some "%EE%80%80"
  /\ encodeURIComponent [65535%N] = Some "%EF%BF%BF"
  /\ encodeURIComponent [55296%N; 56320%N] = Some "%F0%90%80%80"
  /\ encodeURIComponent [56319%N; 57343%N] = Some "%F4%8F%BF%BF"
  /\ encodeURIComponent [55296%N] = None
  /\ encodeURIComponent [56319%N; 97%N] = None
  /\ encodeURIComponent [56320%N] = None
  /\ encodeURIComponent [57343%N; 55296%N] = None
  /\ encodeURIComponent [55296%N; 55296%N; 56320%N] = None.
Proof. vm_compute. auto 20. Qed.

(** ** The registration form *)

(** What the [catch] block of the registration handler leaves behind. *)
Lemma registerForm_resume_caught (r : fetch_result) (p : page) :
  r = NetworkFailure \/ (exists resp, r = Responded resp /\ json resp = None) ->
  let p' := snd (registerForm_resume r p) in
  regMessageDiv p' = {| textContent := register_failed_text; classList := ["error"] |}
  /\ registerForm p' = registerForm p
  /\ timers p' = timers p
  /\ console p' = console p ++ ["Error registering:"].
Proof.
  intros [-> | (resp & -> & Hjson)]; unfold registerForm_resume; js_unfold;
    cbn; [| rewrite Hjson]; cbn; auto.
Qed.

(** The two branches that follow a response with a JSON body. *)
Lemma registerForm_resume_ok (resp : response) (body : value) (p : page) :
  ok resp = true -> json resp = Some body ->
  snd (registerForm_resume (Responded resp) p) =
    with_timers (fun l => l ++ [((clock p + 5000)%N, HideRegMessage)])
      (with_registerForm reset_register
        (with_regMessageDiv
           (fun _ => {| textContent := "Registration successful!";
                        classList := ["success"] |}) p)).
Proof.
  intros Hok Hjson. unfold registerForm_resume. js_unfold. cbn.
  rewrite Hjson, Hok. reflexivity.
Qed.

Lemma registerForm_resume_rejected (resp : response) (body : value) (text : string)
    (p : page) :
  ok resp = false -> json resp = Some body -> has_properties body = true ->
  nullable_DOMString (js_or (own "detail" body) (VStr "Registration failed"))
  = Some text ->
  snd (registerForm_resume (Responded resp) p) =
    with_timers (fun l => l ++ [((clock p + 5000)%N, HideRegMessage)])
      (with_regMessageDiv
         (fun _ => {| textContent := text; classList := ["error"] |}) p).
Proof.
  intros Hok Hjson Hbody Htext. unfold registerForm_resume. js_unfold. cbn.
  rewrite Hjson, Hok. destruct body; try discriminate; cbn in Htext |- *;
    first [ injection Htext as <-; reflexivity | rewrite Htext; reflexivity ].
Qed.

(** The setter of [textContent] converts what it is given; when that
    throws, or when the body has no properties to read, the [catch] block
    takes over. *)
Lemma registerForm_resume_rejected_caught (resp : response) (body : value)
    (p : page) :
  ok resp = false -> json resp = Some body ->
  has_properties body = false
  \/ nullable_DOMString (js_or (own "detail" body) (VStr "Registration failed"))
     = None ->
  snd (registerForm_resume (Responded resp) p) =
    with_console (fun l => l ++ ["Error registering:"])
      (with_regMessageDiv
         (fun _ => {| textContent := register_failed_text; classList := ["error"] |})
         p).
Proof.
  intros Hok Hjson Hcase. unfold registerForm_resume. js_unfold. cbn.
  rewrite Hjson, Hok.
  destruct Hcase as [Hbody | Htext].
  - destruct body; try discriminate; destruct p; reflexivity.
  - destruct body; cbn in Htext |- *; try discriminate;
      rewrite ?Htext; destruct p; reflexivity.
Qed.

(** A body that is [null] has no properties to read: the read of [detail]
    throws and the [catch] block takes over. *)
Lemma registerForm_resume_null_body (resp : response) (p : page) :
  ok resp = false -> json resp = Some VNull ->
  let p' := snd (registerForm_resume (Responded resp) p) in
  regMessageDiv p' = {| textContent := register_failed_text; classList := ["error"] |}
  /\ registerForm p' = registerForm p.
Proof.
  intros Hok Hjson. unfold registerForm_resume. js_unfold. cbn.
  rewrite Hjson, Hok. cbn. auto.
Qed.

(** C7: when the request to /register fails in transit, or its response
    body is not JSON, the status area shows exactly
    "Failed to register. Please try again." and the fields of the
    registration form keep their values. *)
Theorem C7_register_failure_message (r : fetch_result) (p : page) :
  r = NetworkFailure \/ (exists resp, r = Responded resp /\ json resp = None) ->
  let p' := snd (registerForm_resume r p) in
  textContent (regMessageDiv p') = "Failed to register. Please try again."
  /\ hidden (regMessageDiv p') = false
  /\ registerForm p' = registerForm p.
Proof.
  intros Hr. destruct (registerForm_resume_caught r p Hr) as (Hmsg & Hform & _).
  cbn zeta. rewrite Hmsg, Hform. auto.
Qed.

Lemma C7_register_failure_message_witness :
  (NetworkFailure = NetworkFailure
   \/ exists resp, NetworkFailure = Responded resp /\ json resp = None)
  /\ let p' := snd (registerForm_resume NetworkFailure sample_page) in
     textContent (regMessageDiv p') = "Failed to register. Please try again."
     /\ hidden (regMessageDiv p') = false
     /\ registerForm p' = registerForm sample_page.
Proof.
  split; [left; reflexivity |].
  apply (C7_register_failure_message NetworkFailure sample_page).
  left; reflexivity.
Defined.

(** C3, as the code has it: for every response of /register with
    [response.ok] true whose body is JSON, whatever that JSON value is, the
    registration form is reset to empty and the success message is shown. *)
Theorem C3_register_success (resp : response) (body : value) (p : page) :
  ok resp = true -> json resp = Some body ->
  let p' := snd (registerForm_resume (Responded resp) p) in
  registerForm p' =
    {| reg_email := ""; first_name := ""; last_name := ""; password := "" |}
  /\ textContent (regMessageDiv p') = "Registration successful!"
  /\ classList (regMessageDiv p') = ["success"]
  /\ hidden (regMessageDiv p') = false.
Proof.
  intros Hok Hjson. cbn zeta.
  rewrite (registerForm_resume_ok resp body p Hok Hjson). cbn. auto.
Qed.

Lemma C3_register_success_witness :
  let resp := {| status := 201; json := Some (VStr "anything") |} in
  (ok resp = true /\ json resp = Some (VStr "anything"))
  /\ let p' := snd (registerForm_resume (Responded resp) sample_page) in
     registerForm p' =
       {| reg_email := ""; first_name := ""; last_name := ""; password := "" |}
     /\ textContent (regMessageDiv p') = "Registration successful!"
     /\ classList (regMessageDiv p') = ["success"]
     /\ hidden (regMessageDiv p') = false.
Proof.
  split; [split; reflexivity |].
  apply (C3_register_success {| status := 201; json := Some (VStr "anything") |}
           (VStr "anything") sample_page); reflexivity.
Defined.

(** C3 does not hold for every body: a response with status 201 whose body
    is not JSON text has [response.ok] true, yet [response.json()] rejects
    before the status is looked at; the form keeps its values and the
    failure message is shown. *)
Lemma C3_register_success_counterexample :
  let resp := {| status := 201; json := None |} in
  let p' := snd (registerForm_resume (Responded resp) sample_page) in
  ok resp = true
  /\ registerForm p' = registerForm sample_page
  /\ registerForm p' <>
       {| reg_email := ""; first_name := ""; last_name := ""; password := "" |}
  /\ textContent (regMessageDiv p') = "Failed to register. Please try again."
  /\ classList (regMessageDiv p') = ["error"].
Proof. cbn. repeat split; try reflexivity. discriminate. Qed.

Lemma nullable_DOMString_truthy (v : value) :
  truthy v = true -> nullable_DOMString v = to_string v.
Proof. destruct v; cbn; congruence. Qed.

Lemma js_or_text (detail : value) (fallback : string) :
  nullable_DOMString (js_or detail (VStr fallback)) =
    if truthy detail then to_string detail else Some fallback.
Proof.
  unfold js_or. destruct (truthy detail) eqn:Ht; [| reflexivity].
  now apply nullable_DOMString_truthy.
Qed.

(** The falsy values of JSON. *)
Lemma falsy_values (v : value) :
  truthy v = false <->
  v = VUndefined \/ v = VNull \/ v = VBool false \/ v = VStr ""
  \/ exists n, v = VNum n /\ integer n = 0.
Proof.
  split.
  - destruct v as [| | [] | n | s | |]; cbn; intros H; try discriminate; auto.
    + right. right. right. right. exists n. split; [reflexivity |].
      apply negb_false_iff, Z.eqb_eq in H. exact H.
    + apply negb_false_iff, String.eqb_eq in H. subst. auto.
  - intros [-> | [-> | [-> | [-> | (n & -> & Hn)]]]]; cbn; try reflexivity.
    now rewrite Hn.
Qed.

(** C4, as the code has it: for every response of /register with
    [response.ok] false and a JSON body, the fields of the registration
    form keep their values and an error message is shown, which is
    - the [detail] of the body when that is truthy and converts to text,
    - "Registration failed" when [detail] is absent or falsy (the empty
      string, 0, false or null, and nothing else),
    - the message of the [catch] block when the body itself is null, or
      when converting a truthy [detail] to text throws. *)
Theorem C4_register_rejected (resp : response) (body : value) (p : page) :
  ok resp = false -> json resp = Some body ->
  let p' := snd (registerForm_resume (Responded resp) p) in
  registerForm p' = registerForm p
  /\ classList (regMessageDiv p') = ["error"]
  /\ hidden (regMessageDiv p') = false
  /\ textContent (regMessageDiv p') =
       (if has_properties body
        then if truthy (own "detail" body)
             then match to_string (own "detail" body) with
                  | Some text => text
                  | None => "Failed to register. Please try again."
                  end
             else "Registration failed"
        else "Failed to register. Please try again.")
  /\ (forall v : value,
        truthy v = false <->
        v = VUndefined \/ v = VNull \/ v = VBool false \/ v = VStr ""
        \/ exists n, v = VNum n /\ integer n = 0).
Proof.
  intros Hok Hjson. cbn zeta.
  enough (H : registerForm (snd (registerForm_resume (Responded resp) p))
              = registerForm p
              /\ classList (regMessageDiv (snd (registerForm_resume (Responded resp) p)))
                 = ["error"]
              /\ hidden (regMessageDiv (snd (registerForm_resume (Responded resp) p)))
                 = false
              /\ textContent (regMessageDiv (snd (registerForm_resume (Responded resp) p)))
                 = (if has_properties body
                    then if truthy (own "detail" body)
                         then match to_string (own "detail" body) with
                              | Some text => text
                              | None => "Failed to register. Please try again."
                              end
                         else "Registration failed"
                    else "Failed to register. Please try again."))
    by (destruct H as (H1 & H2 & H3 & H4); auto using falsy_values).
  destruct (has_properties body) eqn:Hbody.
  - pose proof (js_or_text (own "detail" body) "Registration failed") as Htext.
    destruct (truthy (own "detail" body)).
    + destruct (to_string (own "detail" body)) as [text |].
      * rewrite (registerForm_resume_rejected resp body text p Hok Hjson Hbody Htext).
        cbn. auto.
      * rewrite (registerForm_resume_rejected_caught resp body p Hok Hjson)
          by (right; exact Htext).
        cbn. auto.
    + rewrite (registerForm_resume_rejected resp body _ p Hok Hjson Hbody Htext).
      cbn. auto.
  - rewrite (registerForm_resume_rejected_caught resp body p Hok Hjson)
      by (left; exact Hbody).
    cbn. auto.
Qed.

Lemma C4_register_rejected_witness :
  let resp := {| status := 400;
                 json := Some (VObj {["detail" := VStr "Email already registered"]}) |} in
  (ok resp = false
   /\ json resp = Some (VObj {["detail" := VStr "Email already registered"]}))
  /\ let p' := snd (registerForm_resume (Responded resp) sample_page) in
     registerForm p' = registerForm sample_page
     /\ classList (regMessageDiv p') = ["error"]
     /\ hidden (regMessageDiv p') = false
     /\ textContent (regMessageDiv p') = "Email already registered"
     /\ (forall v : value,
           truthy v = false <->
           v = VUndefined \/ v = VNull \/ v = VBool false \/ v = VStr ""
           \/ exists n, v = VNum n /\ integer n = 0).
Proof.
  split; [split; reflexivity |].
  exact (C4_register_rejected
           {| status := 400;
              json := Some (VObj {["detail" := VStr "Email already registered"]}) |}
           (VObj {["detail" := VStr "Email already registered"]}) sample_page
           eq_refl eq_refl).
Defined.

(** C4 does not hold for every JSON body: with the body [{"detail": ""}]
    the field [detail] is there and converts to the empty text, yet the
    text shown is the fallback "Registration failed". *)
Lemma C4_register_rejected_counterexample :
  let body := VObj {["detail" := VStr ""]} in
  let resp := {| status := 400; json := Some body |} in
  let p' := snd (registerForm_resume (Responded resp) sample_page) in
  ok resp = false
  /\ own "detail" body = VStr ""
  /\ nullable_DOMString (own "detail" body) = Some ""
  /\ textContent (regMessageDiv p') = "Registration failed"
  /\ textContent (regMessageDiv p') <> "".
Proof. vm_compute. repeat split; discriminate. Qed.

(** A [detail] that is an object with a [toString] of its own cannot be
    converted: the setter of line 78 throws and the [catch] block shows
    its message. *)
Example register_detail_that_does_not_print :
  let body := VObj {["detail" := VObj {["toString" := VNum #1]}]} in
  regMessageDiv
    (snd (registerForm_resume (http 400 body) sample_page))
  = {| textContent := "Failed to register. Please try again.";
       classList := ["error"] |}.
Proof. vm_compute. reflexivity. Qed.

(** ** The signup form *)

Lemma signupForm_resume_ok (resp : response) (body : value) (text : string)
    (p : page) :
  ok resp = true -> json resp = Some body -> has_properties body = true ->
  nullable_DOMString (own "message" body) = Some text ->
  snd (signupForm_resume (Responded resp) p) =
    with_timers (fun l => l ++ [((clock p + 5000)%N, HideMessage)])
      (with_pending (fun l => l ++ [FetchActivities])
        (with_requests (fun l => l ++ [get_activities])
          (with_signupForm reset_signup
            (with_messageDiv
               (fun _ => {| textContent := text; classList := ["success"] |}) p)))).
Proof.
  intros Hok Hjson Hbody Htext.
  unfold signupForm_resume, signupForm_catch, fetchActivities_start.
  js_unfold. cbn. rewrite Hjson, Hok.
  destruct body; try discriminate; cbn in Htext |- *;
    first [ injection Htext as <-; reflexivity | rewrite Htext; reflexivity ].
Qed.

Lemma signupForm_resume_rejected (resp : response) (body : value) (text : string)
    (p : page) :
  ok resp = false -> json resp = Some body -> has_properties body = true ->
  nullable_DOMString (js_or (own "detail" body) (VStr "An error occurred"))
  = Some text ->
  snd (signupForm_resume (Responded resp) p) =
    with_timers (fun l => l ++ [((clock p + 5000)%N, HideMessage)])
      (with_messageDiv
         (fun _ => {| textContent := text; classList := ["error"] |}) p).
Proof.
  intros Hok Hjson Hbody Htext. unfold signupForm_resume, signupForm_catch.
  js_unfold. cbn. rewrite Hjson, Hok.
  destruct body; try discriminate; cbn in Htext |- *;
    first [ injection Htext as <-; reflexivity | rewrite Htext; reflexivity ].
Qed.

(** The paths of the signup handler that end in its [catch] block: the
    request failed, the body is not JSON or has no properties to read, or
    the text to show cannot be converted. *)
Lemma signupForm_resume_caught_page (r : fetch_result) (p : page) :
  r = NetworkFailure
  \/ (exists resp, r = Responded resp
        /\ (json resp = None
            \/ exists body, json resp = Some body
                 /\ (has_properties body = false
                     \/ (ok resp = true
                         /\ nullable_DOMString (own "message" body) = None)
                     \/ (ok resp = false
                         /\ nullable_DOMString
                              (js_or (own "detail" body) (VStr "An error occurred"))
                            = None)))) ->
  snd (signupForm_resume r p) =
    with_console (fun l => l ++ ["Error signing up:"])
      (with_messageDiv
         (fun _ => {| textContent := signup_failed_text; classList := ["error"] |})
         p).
Proof.
  intros [-> | (resp & -> & [Hjson | (body & Hjson & Hcase)])];
    unfold signupForm_resume, signupForm_catch; js_unfold; cbn.
  - destruct p; reflexivity.
  - rewrite Hjson. destruct p; reflexivity.
  - rewrite Hjson. destruct Hcase as [Hbody | [[Hok Htext] | [Hok Htext]]].
    + destruct (ok resp), body; try discriminate; destruct p; reflexivity.
    + rewrite Hok. destruct body; cbn in Htext |- *; try discriminate;
        rewrite ?Htext; destruct p; reflexivity.
    + rewrite Hok. destruct body; cbn in Htext |- *; try discriminate;
        rewrite ?Htext; destruct p; reflexivity.
Qed.

(** Every outcome of a signup is one of the three above. *)
Lemma signupForm_resume_cases (r : fetch_result) (p : page) :
  (exists resp body text,
     r = Responded resp /\ ok resp = true /\ json resp = Some body
     /\ has_properties body = true
     /\ nullable_DOMString (own "message" body) = Some text)
  \/ (exists resp body text,
        r = Responded resp /\ ok resp = false /\ json resp = Some body
        /\ has_properties body = true
        /\ nullable_DOMString (js_or (own "detail" body) (VStr "An error occurred"))
           = Some text)
  \/ snd (signupForm_resume r p) =
       with_console (fun l => l ++ ["Error signing up:"])
         (with_messageDiv
            (fun _ => {| textContent := signup_failed_text; classList := ["error"] |})
            p).
Proof.
  destruct r as [| resp].
  { right; right. apply signupForm_resume_caught_page. now left. }
  destruct (json resp) as [body |] eqn:Hjson.
  2:{ right; right. apply signupForm_resume_caught_page. right. eauto. }
  destruct (has_properties body) eqn:Hbody.
  2:{ right; right. apply signupForm_resume_caught_page. right. eauto 8. }
  destruct (ok resp) eqn:Hok.
  - destruct (nullable_DOMString (own "message" body)) as [text |] eqn:Htext.
    + left. eauto 10.
    + right; right. apply signupForm_resume_caught_page. right.
      exists resp. split; [reflexivity |]. right. exists body. auto.
  - destruct (nullable_DOMString
                (js_or (own "detail" body) (VStr "An error occurred")))
      as [text |] eqn:Htext.
    + right; left. eauto 10.
    + right; right. apply signupForm_resume_caught_page. right.
      exists resp. split; [reflexivity |]. right. exists body. auto.
Qed.

(** Every path of the signup handler other than the success branch leaves
    the form, the request log and the waiting functions as they were. *)
Lemma signupForm_resume_frame (r : fetch_result) (p : page) :
  r = NetworkFailure
  \/ (exists resp, r = Responded resp /\ (json resp = None \/ ok resp = false)) ->
  let p' := snd (signupForm_resume r p) in
  signupForm p' = signupForm p
  /\ requests p' = requests p
  /\ pending p' = pending p.
Proof.
  intros Hr. cbn zeta.
  destruct (signupForm_resume_cases r p)
    as [(resp & body & text & -> & Hok & Hjson & Hbody & Htext)
       | [(resp & body & text & -> & Hok & Hjson & Hbody & Htext) | ->]].
  - destruct Hr as [? | (resp' & Heq & [Hnone | Hnot_ok])]; [discriminate | |];
      injection Heq as <-; congruence.
  - rewrite (signupForm_resume_rejected resp body text p Hok Hjson Hbody Htext).
    cbn. auto.
  - cbn. auto.
Qed.

(** C6: when the signup request is answered with [response.ok] true and a
    JSON object carrying a [message] that converts to text (a string, in
    particular), that message is displayed, the signup form is reset, and
    exactly one request GET /activities is sent (the refresh of the
    list). *)
Theorem C6_signup_success (resp : response) (fields : gmap string value)
    (message : value) (text : string) (p : page) :
  ok resp = true -> json resp = Some (VObj fields) ->
  fields !! "message" = Some message ->
  nullable_DOMString message = Some text ->
  let p' := snd (signupForm_resume (Responded resp) p) in
  textContent (messageDiv p') = text
  /\ classList (messageDiv p') = ["success"]
  /\ hidden (messageDiv p') = false
  /\ signupForm p' = {| email := []; activity := [] |}
  /\ requests p' =
       requests p ++ [{| url := "/activities"; method := "GET";
                         headers := []; body := None |}]
  /\ pending p' = pending p ++ [FetchActivities].
Proof.
  intros Hok Hjson Hmsg Htext. cbn zeta.
  rewrite (signupForm_resume_ok resp (VObj fields) text p Hok Hjson eq_refl)
    by (cbn; now rewrite Hmsg).
  cbn. auto 10.
Qed.

Lemma C6_signup_success_witness :
  let resp := {| status := 200;
                 json := Some (VObj {["message" := VStr "Signed up"]}) |} in
  (ok resp = true
   /\ json resp = Some (VObj {["message" := VStr "Signed up"]})
   /\ ({["message" := VStr "Signed up"]} : gmap string value) !! "message"
      = Some (VStr "Signed up")
   /\ nullable_DOMString (VStr "Signed up") = Some "Signed up")
  /\ let p' := snd (signupForm_resume (Responded resp) sample_page) in
     textContent (messageDiv p') = "Signed up"
     /\ classList (messageDiv p') = ["success"]
     /\ hidden (messageDiv p') = false
     /\ signupForm p' = {| email := []; activity := [] |}
     /\ requests p' =
          requests sample_page ++ [{| url := "/activities"; method := "GET";
                                      headers := []; body := None |}]
     /\ pending p' = pending sample_page ++ [FetchActivities].
Proof.
  split; [repeat split; reflexivity |].
  exact (C6_signup_success
           {| status := 200; json := Some (VObj {["message" := VStr "Signed up"]}) |}
           {["message" := VStr "Signed up"]} (VStr "Signed up") "Signed up"
           sample_page eq_refl eq_refl eq_refl eq_refl).
Defined.

(** A [message] that is an object with a [toString] of its own cannot be
    converted: the setter of line 116 throws before the form is reset and
    before the refresh is started. *)
Example signup_message_that_does_not_print :
  let body := VObj {["message" := VObj {["toString" := VNum #1]}]} in
  let p' := snd (signupForm_resume (http 200 body) sample_page) in
  messageDiv p' =
    {| textContent := "Failed to sign up. Please try again."; classList := ["error"] |}
  /\ signupForm p' = signupForm sample_page
  /\ requests p' = requests sample_page.
Proof. vm_compute. auto. Qed.

(** C10: when a signup fails -- the response has [response.ok] false, or
    the request fails in transit, or the body is not JSON -- the fields of
    the signup form keep their values and no refresh of the activity list
    is started. *)
Theorem C10_signup_failure_frame (r : fetch_result) (p : page) :
  r = NetworkFailure
  \/ (exists resp, r = Responded resp /\ (json resp = None \/ ok resp = false)) ->
  let p' := snd (signupForm_resume r p) in
  signupForm p' = signupForm p
  /\ requests p' = requests p
  /\ pending p' = pending p.
Proof. exact (signupForm_resume_frame r p). Qed.

Lemma C10_signup_failure_frame_witness :
  let r := http 400 (VObj {["detail" := VStr "Already signed up"]}) in
  (r = NetworkFailure
   \/ (exists resp, r = Responded resp /\ (json resp = None \/ ok resp = false)))
  /\ let p' := snd (signupForm_resume r sample_page) in
     signupForm p' = signupForm sample_page
     /\ requests p' = requests sample_page
     /\ pending p' = pending sample_page.
Proof.
  assert (H : http 400 (VObj {["detail" := VStr "Already signed up"]}) = NetworkFailure
              \/ (exists resp,
                    http 400 (VObj {["detail" := VStr "Already signed up"]})
                    = Responded resp
                    /\ (json resp = None \/ ok resp = false))).
  { right. eexists. split; [reflexivity | right; reflexivity]. }
  split; [exact H |].
  exact (C10_signup_failure_frame _ sample_page H).
Defined.

(** *** The address of the signup request *)

Lemma all_chars_app (f : ascii -> bool) (a b : string) :
  all_chars f (a +:+ b) = all_chars f a && all_chars f b.
Proof.
  induction a as [| c a IH]; simpl; [reflexivity |].
  rewrite IH. now rewrite andb_assoc.
Qed.

Lemma escape_char_safe (c : ascii) :
  all_chars component_char
    (if unreserved c then String c "" else percent_encode c) = true.
Proof. destruct c as [[] [] [] [] [] [] [] []]; reflexivity. Qed.

Lemma escape_octets_safe (s : string) :
  all_chars component_char (escape_octets s) = true.
Proof.
  induction s as [| c s IH]; cbn; [reflexivity |].
  now rewrite all_chars_app, escape_char_safe, IH.
Qed.

Lemma decode_escape_char (c : ascii) (rest : string) :
  percent_decode
    ((if unreserved c then String c "" else percent_encode c) +:+ rest)
  = String c (percent_decode rest).
Proof. destruct c as [[] [] [] [] [] [] [] []]; reflexivity. Qed.

Lemma percent_decode_escape_octets (s : string) :
  percent_decode (escape_octets s) = s.
Proof.
  induction s as [| c s IH]; cbn; [reflexivity |].
  now rewrite decode_escape_char, IH.
Qed.

Lemma length_append (a b : string) :
  String.length (a +:+ b) = (String.length a + String.length b)%nat.
Proof.
  induction a as [| x a IH]; [reflexivity |]. exact (f_equal S IH).
Qed.

Lemma escape_octets_length (s : string) :
  String.length (escape_octets s) =
    (String.length s + 2 * count_chars (fun c => negb (unreserved c)) s)%nat.
Proof.
  induction s as [| c s IH]; [reflexivity |].
  cbn [escape_octets count_chars]. rewrite length_append, IH.
  destruct (unreserved c); cbn; lia.
Qed.

(** The characters left alone are the ones ECMAScript lists. *)
Lemma unreserved_table (c : ascii) :
  unreserved c =
    occurs c "ABCDEFGHIJKLMNOPQRSTUVWXYZabcdefghijklmnopqrstuvwxyz0123456789-_.!~*'()".
Proof. destruct c as [[] [] [] [] [] [] [] []]; reflexivity. Qed.

Lemma encodeURIComponent_spec (s : DOMString) (encoded : string) :
  encodeURIComponent s = Some encoded ->
  all_chars component_char encoded = true
  /\ Some (percent_decode encoded) = utf8 s
  /\ (forall octets,
        utf8 s = Some octets ->
        String.length encoded =
          (String.length octets
           + 2 * count_chars (fun c => negb (unreserved c)) octets)%nat).
Proof.
  unfold encodeURIComponent. destruct (utf8 s) as [octets |]; [| discriminate].
  intros [= <-]. split; [apply escape_octets_safe |]. split.
  - now rewrite percent_decode_escape_octets.
  - intros ? [= <-]. apply escape_octets_length.
Qed.

(** When [encodeURIComponent] throws on one of the two values, the [catch]
    block runs at once: nothing is sent and the failure message shows. *)
Lemma signupForm_submit_throws (p : page) :
  encodeURIComponent (activity (signupForm p)) = None
  \/ encodeURIComponent (email (signupForm p)) = None ->
  let p' := snd (signupForm_submit p) in
  requests p' = requests p
  /\ pending p' = pending p
  /\ signupForm p' = signupForm p
  /\ messageDiv p' =
       {| textContent := "Failed to sign up. Please try again."; classList := ["error"] |}
  /\ console p' = console p ++ ["Error signing up:"].
Proof.
  intros H. unfold signupForm_submit, signupForm_catch. js_unfold. cbn.
  destruct (encodeURIComponent (activity (signupForm p))) as [id |]; cbn.
  - destruct H as [H | ->]; [discriminate |]. cbn. auto.
  - auto.
Qed.

(** C9, as the code has it: a signup submission whose activity and e-mail
    address are well-formed text, so that [encodeURIComponent] returns for
    both, sends one request, POST, to
    /activities/{activity}/signup?email={email}, where both values went
    through [encodeURIComponent]: each is the percent-encoding of the
    value's UTF-8 form, holds only unreserved characters and percent
    escapes, decodes back to that form, and is longer than it by two
    characters for each octet that is not unreserved -- so exactly those
    octets are escaped; the characters left as they are are the letters,
    the digits and [- _ . ! ~ * ' ( )]. *)
Theorem C9_signup_request (p : page) (id mail : string) :
  encodeURIComponent (activity (signupForm p)) = Some id ->
  encodeURIComponent (email (signupForm p)) = Some mail ->
  let p' := snd (signupForm_submit p) in
  requests p' =
    requests p ++ [{| url := "/activities/" +:+ id +:+ "/signup?email=" +:+ mail;
                      method := "POST"; headers := []; body := None |}]
  /\ pending p' = pending p ++ [SignupSubmit]
  /\ messageDiv p' = messageDiv p
  /\ all_chars component_char id = true
  /\ all_chars component_char mail = true
  /\ Some (percent_decode id) = utf8 (activity (signupForm p))
  /\ Some (percent_decode mail) = utf8 (email (signupForm p))
  /\ (forall octets,
        utf8 (activity (signupForm p)) = Some octets ->
        String.length id =
          (String.length octets
           + 2 * count_chars (fun c => negb (unreserved c)) octets)%nat)
  /\ (forall octets,
        utf8 (email (signupForm p)) = Some octets ->
        String.length mail =
          (String.length octets
           + 2 * count_chars (fun c => negb (unreserved c)) octets)%nat)
  /\ (forall c : ascii,
        unreserved c =
          occurs c
            "ABCDEFGHIJKLMNOPQRSTUVWXYZabcdefghijklmnopqrstuvwxyz0123456789-_.!~*'()").
Proof.
  intros Hid Hmail. cbn zeta.
  destruct (encodeURIComponent_spec _ _ Hid) as (Hid_safe & Hid_decode & Hid_length).
  destruct (encodeURIComponent_spec _ _ Hmail)
    as (Hmail_safe & Hmail_decode & Hmail_length).
  unfold signupForm_submit, signupForm_catch. js_unfold. cbn.
  rewrite Hid. cbn. rewrite Hmail. cbn.
  repeat split; auto using unreserved_table.
Qed.

(** A page whose signup form holds an activity with a slash and characters
    at the bounds of the one-, two- and three-octet UTF-8 forms, and an
    e-mail address with an accented letter, a euro sign, the code units
    next to the surrogates, and the first and the last character beyond
    the basic plane (surrogate pairs). *)
Lemma C9_signup_request_witness :
  let p := with_signupForm
             (fun _ => {| email := [233; 8364; 55295; 57344; 55296; 56320;
                                    56319; 57343; 64; 120]%N;
                          activity := [49; 47; 50; 127; 128; 2047; 2048; 65535]%N |})
             sample_page in
  (encodeURIComponent (activity (signupForm p))
   = Some "1%2F2%7F%C2%80%DF%BF%E0%A0%80%EF%BF%BF"
   /\ encodeURIComponent (email (signupForm p))
      = Some "%C3%A9%E2%82%AC%ED%9F%BF%EE%80%80%F0%90%80%80%F4%8F%BF%BF%40x")
  /\ let p' := snd (signupForm_submit p) in
     requests p' =
       requests p
       ++ [{| url := "/activities/1%2F2%7F%C2%80%DF%BF%E0%A0%80%EF%BF%BF"
                     +:+ "/signup?email="
                     +:+ "%C3%A9%E2%82%AC%ED%9F%BF%EE%80%80%F0%90%80%80%F4%8F%BF%BF%40x";
              method := "POST"; headers := []; body := None |}]
     /\ pending p' = pending p ++ [SignupSubmit]
     /\ messageDiv p' = messageDiv p.
Proof.
  split; [split; reflexivity |].
  destruct (C9_signup_request
              (with_signupForm
                 (fun _ => {| email := [233; 8364; 55295; 57344; 55296; 56320;
                                        56319; 57343; 64; 120]%N;
                              activity := [49; 47; 50; 127; 128; 2047; 2048;
                                           65535]%N |})
                 sample_page)
              "1%2F2%7F%C2%80%DF%BF%E0%A0%80%EF%BF%BF"
              "%C3%A9%E2%82%AC%ED%9F%BF%EE%80%80%F0%90%80%80%F4%8F%BF%BF%40x"
              eq_refl eq_refl) as (Hrequests & Hpending & Hmessage & _).
  split; [exact Hrequests |]. split; [exact Hpending | exact Hmessage].
Defined.

(** C9 does not hold for every submission: an activity identifier that
    ends in an unpaired surrogate (code unit D800) makes
    [encodeURIComponent] throw inside the [try] block of line 103.  No
    request is sent; the [catch] block shows its message. *)
Lemma C9_signup_request_counterexample :
  let p := with_signupForm
             (fun _ => {| email := of_ascii "ann@example.org";
                          activity := of_ascii "chess" ++ [55296%N] |}) sample_page in
  let p' := snd (signupForm_submit p) in
  encodeURIComponent (activity (signupForm p)) = None
  /\ requests p' = requests p
  /\ requests p' = []
  /\ pending p' = []
  /\ messageDiv p' =
       {| textContent := "Failed to sign up. Please try again.";
          classList := ["error"] |}.
Proof. vm_compute. auto. Qed.

Example signup_request_sample :
  requests (snd (signupForm_submit sample_page)) =
    [{| url := "/activities/1%2F2/signup?email=ann%20lee%40example.org";
        method := "POST"; headers := []; body := None |}].
Proof. reflexivity. Qed.

(** ** The list of activities *)

Lemma text_from_app (in_tag : bool) (a b : string) :
  text_from in_tag (a +:+ b) =
    text_from in_tag a +:+ text_from (inside_tag in_tag a) b.
Proof.
  revert in_tag. induction a as [| c a IH]; intros in_tag; [reflexivity |].
  change (String c a +:+ b) with (String c (a +:+ b)).
  cbn [text_from inside_tag]. destruct in_tag.
  - now rewrite IH.
  - destruct (Ascii.eqb c "<"); rewrite IH; reflexivity.
Qed.

Lemma text_from_plain (s : string) :
  plain s = true -> text_from false s = s /\ inside_tag false s = false.
Proof.
  induction s as [| c s IH]; [auto |]. cbn [plain].
  intros H. apply andb_prop in H as [Hc Hs]. apply andb_prop in Hc as [Hc _].
  destruct (IH Hs) as [IH1 IH2].
  assert (Hlt : Ascii.eqb c "<" = false).
  { destruct (Ascii.eqb c "<"); [discriminate | reflexivity]. }
  cbn [text_from inside_tag]. rewrite Hlt, IH1, IH2. auto.
Qed.

Lemma plain_digits (d : Decimal.uint) : plain (NilEmpty.string_of_uint d) = true.
Proof. induction d; cbn; auto. Qed.

Example plain_samples :
  plain "Chess & Checkers" = true
  /\ plain "3 > 2 & 1" = true
  /\ plain "Q&A" = false
  /\ plain "Chess &amp; Checkers" = false
  /\ plain "&#60;" = false
  /\ plain "<b>Chess</b>" = false
  /\ plain "a < b" = false.
Proof. vm_compute. auto 10. Qed.

Lemma plain_Z_to_string (z : Z) : plain (Z_to_string z) = true.
Proof.
  unfold Z_to_string, NilZero.string_of_int, NilZero.string_of_uint.
  destruct (Z.to_int z) as [d | d]; destruct d; cbn; auto using plain_digits.
Qed.

(** What a card displays when the four texts put into the template are
    plain. *)
Lemma text_content_card_markup (name description schedule spots : string) :
  plain name = true -> plain description = true -> plain schedule = true ->
  plain spots = true ->
  text_content (card_markup name description schedule spots) =
    LF +:+ "          " +:+ name +:+
    LF +:+ "          " +:+ description +:+
    LF +:+ "          Schedule: " +:+ schedule +:+
    LF +:+ "          Availability: " +:+ spots +:+ " spots left" +:+
    LF +:+ "        ".
Proof.
  intros Hn Hd Hs Hx.
  destruct (text_from_plain _ Hn) as [Hn1 Hn2].
  destruct (text_from_plain _ Hd) as [Hd1 Hd2].
  destruct (text_from_plain _ Hs) as [Hs1 Hs2].
  destruct (text_from_plain _ Hx) as [Hx1 Hx2].
  unfold text_content, card_markup.
  repeat (rewrite text_from_app; cbn [inside_tag LF Ascii.eqb Bool.eqb negb];
          rewrite ?Hn1, ?Hn2, ?Hd1, ?Hd2, ?Hs1, ?Hs2, ?Hx1, ?Hx2).
  reflexivity.
Qed.

Section ActivityList.

Variable StringToNumber : string -> option safe_integer.

(** The callback, in one step: it throws before anything is drawn when the
    card cannot be made, throws after the card is added when the option
    cannot be made, and otherwise adds both. *)
Lemma render_activity_run (v : value) (p : page) :
  render_activity StringToNumber v p =
    match card_of StringToNumber v with
    | None => (Thrown TypeError, p)
    | Some c =>
        match option_of v with
        | None => (Thrown TypeError, with_activitiesList (appendChild c) p)
        | Some o =>
            (Normal tt,
             with_activitySelect (fun l => l ++ [o])
               (with_activitiesList (appendChild c) p))
        end
    end.
Proof.
  unfold render_activity, card_of, option_of. js_unfold.
  destruct v; cbn; try reflexivity;
    repeat match goal with
           | |- context [match ?x with Some _ => _ | None => _ end] =>
               destruct x; cbn; try reflexivity
           end.
Qed.

Lemma rendered_all (acts : list value) :
  forallb (renders StringToNumber) acts = true ->
  rendered StringToNumber acts = acts.
Proof.
  induction acts as [| v acts IH]; [reflexivity |]. cbn.
  destruct (renders StringToNumber v); [| discriminate]. intros H. now rewrite IH.
Qed.

(** The loop renders the elements ahead of the first one on which the
    callback throws, and throws there, if there is one. *)
Lemma for_each_render_any (acts : list value) (p : page) :
  exists cards,
    for_each (render_activity StringToNumber) acts p =
      (if forallb (renders StringToNumber) acts then Normal tt else Thrown TypeError,
       with_activitySelect
         (fun l => l ++ omap option_of (rendered StringToNumber acts))
         (with_activitiesList
            (fun c => {| markup := markup c; appended := appended c ++ cards |}) p))
    /\ (forallb (renders StringToNumber) acts = true ->
        cards = omap (card_of StringToNumber) acts).
Proof.
  revert p. induction acts as [| v acts IH]; intros p.
  - exists []. split; [| reflexivity].
    destruct p as [[] ? ? ? ? ? ? ? ? ? ?]. js_unfold. page_goal.
    now rewrite !app_nil_r.
  - cbn [for_each forallb rendered]. unfold bind. rewrite render_activity_run.
    assert (Hr : renders StringToNumber v =
                 match card_of StringToNumber v, option_of v with
                 | Some _, Some _ => true
                 | _, _ => false
                 end) by reflexivity.
    rewrite Hr. clear Hr.
    destruct (card_of StringToNumber v) as [c |] eqn:Hc.
    + destruct (option_of v) as [o |] eqn:Ho.
      * destruct (IH (with_activitySelect (fun l => l ++ [o])
                        (with_activitiesList (appendChild c) p)))
          as (cards & -> & Hcards).
        exists (c :: cards). cbn [andb]. split.
        -- cbn [omap list_omap]. rewrite Ho.
           destruct p as [[] ? ? ? ? ? ? ? ? ? ?]. page_goal.
           now rewrite <- !app_assoc.
        -- intros Hall. cbn [omap list_omap]. rewrite Hc. f_equal.
           exact (Hcards Hall).
      * exists [c]. cbn [andb]. split; [| discriminate].
        destruct p as [[] ? ? ? ? ? ? ? ? ? ?]. page_goal.
        now rewrite !app_nil_r.
    + exists []. cbn [andb]. split; [| discriminate].
      destruct p as [[] ? ? ? ? ? ? ? ? ? ?]. page_goal.
      now rewrite !app_nil_r.
Qed.

(** [fetchActivities] on a response whose body is a JSON array. *)
Lemma fetchActivities_resume_array (resp : response) (acts : list value) (p : page) :
  json resp = Some (VArr acts) ->
  fetchActivities_resume StringToNumber (Responded resp) p =
    (Normal tt,
     if forallb (renders StringToNumber) acts
     then with_activitySelect (fun l => l ++ omap option_of acts)
            (with_activitiesList
               (fun _ => {| markup := "";
                            appended := omap (card_of StringToNumber) acts |}) p)
     else with_console (fun l => l ++ ["Error fetching activities:"])
            (with_activitySelect
               (fun l => l ++ omap option_of (rendered StringToNumber acts))
               (with_activitiesList
                  (fun _ => {| markup := failed_to_load; appended := [] |}) p))).
Proof.
  intros Hjson. unfold fetchActivities_resume. js_unfold. cbn. rewrite Hjson. cbn.
  match goal with |- context [for_each _ acts ?q] =>
    destruct (for_each_render_any acts q) as (cards & -> & Hcards) end.
  destruct (forallb (renders StringToNumber) acts) eqn:Hall.
  - rewrite (Hcards eq_refl), (rendered_all acts Hall).
    destruct p as [[] ? ? ? ? ? ? ? ? ? ?]. reflexivity.
  - destruct p as [[] ? ? ? ? ? ? ? ? ? ?]. reflexivity.
Qed.

(** [fetchActivities] on anything else: the [catch] block alone shows. *)
Lemma fetchActivities_resume_no_array (r : fetch_result) (p : page) :
  r = NetworkFailure
  \/ (exists resp, r = Responded resp
                   /\ (json resp = None
                       \/ exists v, json resp = Some v /\ is_array v = false)) ->
  fetchActivities_resume StringToNumber r p =
    (Normal tt,
     with_console (fun l => l ++ ["Error fetching activities:"])
       (with_activitiesList
          (fun _ => {| markup := failed_to_load; appended := [] |}) p)).
Proof.
  intros [-> | (resp & -> & [Hjson | (v & Hjson & Hv)])];
    unfold fetchActivities_resume; js_unfold; cbn; try rewrite Hjson; cbn;
    try (destruct v; try discriminate); destruct p as [[] ? ? ? ? ? ? ? ? ? ?];
    reflexivity.
Qed.

(** Whatever the request settled to, [fetchActivities] completes: its
    [catch] block handles every exception of the [try] block and raises
    none itself. *)
Lemma fetchActivities_never_throws (r : fetch_result) (p : page) :
  fst (fetchActivities_resume StringToNumber r p) = Normal tt.
Proof.
  unfold fetchActivities_resume, try_catch.
  match goal with |- context [match ?b with _ => _ end] => destruct b as [[[] | e] p'] end;
    reflexivity.
Qed.

Lemma omap_length_all {A B} (f : A -> option B) (l : list A) :
  forallb (fun x => match f x with Some _ => true | None => false end) l = true ->
  length (omap f l) = length l.
Proof.
  induction l as [| x l IH]; [reflexivity |]. cbn.
  destruct (f x); [| discriminate]. intros H. cbn. now rewrite IH.
Qed.

Lemma omap_lookup_all {A B} (f : A -> option B) (l : list A) (i : nat) (x : A) :
  forallb (fun x => match f x with Some _ => true | None => false end) l = true ->
  l !! i = Some x -> omap f l !! i = f x.
Proof.
  revert i. induction l as [| y l IH]; intros i Hall Hi; [discriminate |].
  cbn in Hall. cbn [omap list_omap].
  destruct (f y) as [b |] eqn:Hy; [| discriminate].
  destruct i as [| i]; cbn in Hi |- *.
  - injection Hi as <-. now rewrite Hy.
  - now apply IH.
Qed.

Lemma renders_cards (acts : list value) :
  forallb (renders StringToNumber) acts = true ->
  forallb (fun v => match card_of StringToNumber v with
                    | Some _ => true | None => false end) acts = true
  /\ forallb (fun v => match option_of v with
                       | Some _ => true | None => false end) acts = true.
Proof.
  induction acts as [| v acts IH]; [auto |]. cbn. unfold renders at 1.
  destruct (card_of StringToNumber v); [| discriminate].
  destruct (option_of v); [| discriminate]. exact IH.
Qed.

Lemma nullable_of_printable (v : value) (t : string) :
  to_string v = Some t -> exists label, nullable_DOMString v = Some label.
Proof. destruct v; cbn; eauto. Qed.

Lemma count_difference_is_exact (m c : safe_integer) :
  0 <= integer m -> 0 <= integer c ->
  round_to_double (integer m - integer c) = integer m - integer c.
Proof.
  intros Hm Hc. unfold round_to_double.
  pose proof (integer_safe m) as Hm'. pose proof (integer_safe c) as Hc'.
  apply Z.leb_le in Hm', Hc'. unfold MAX_SAFE_INTEGER in Hm', Hc'.
  replace (Z.abs (integer m - integer c) <=? 2 ^ 53) with true; [reflexivity |].
  symmetry. apply Z.leb_le. change (2 ^ 53) with 9007199254740992. lia.
Qed.

(** What being an activity gives. *)
Lemma is_activity_fields (v : value) :
  is_activity v = true ->
  exists fields m c name description schedule key,
    v = VObj fields
    /\ fields !! "max_participants" = Some (VNum m) /\ 0 <= integer m
    /\ fields !! "current_participants" = Some (VNum c) /\ 0 <= integer c
    /\ to_string (own "name" v) = Some name /\ plain name = true
    /\ to_string (own "description" v) = Some description /\ plain description = true
    /\ to_string (own "schedule" v) = Some schedule /\ plain schedule = true
    /\ to_string (own "id" v) = Some key.
Proof.
  destruct v as [| | | | | | fields]; try discriminate. unfold is_activity.
  intros H.
  repeat match type of H with _ && _ = true => apply andb_prop in H as [H ?] end.
  unfold plain_text, printable, is_count, own in *.
  destruct (fields !! "max_participants") as [[| | | m | | |] |] eqn:Hm;
    try discriminate.
  destruct (fields !! "current_participants") as [[| | | c | | |] |] eqn:Hc;
    try discriminate.
  cbn [default from_option Datatypes.id] in *.
  destruct (to_string (default VUndefined (fields !! "name"))) as [name |];
    [| discriminate].
  destruct (to_string (default VUndefined (fields !! "description")))
    as [description |]; [| discriminate].
  destruct (to_string (default VUndefined (fields !! "schedule"))) as [schedule |];
    [| discriminate].
  destruct (to_string (default VUndefined (fields !! "id"))) as [key |];
    [| discriminate].
  exists fields, m, c, name, description, schedule, key.
  repeat split; auto; now apply Z.leb_le.
Qed.

Lemma activity_card (v : value) :
  is_activity v = true ->
  exists fields m c name description schedule,
    v = VObj fields
    /\ fields !! "max_participants" = Some (VNum m)
    /\ fields !! "current_participants" = Some (VNum c)
    /\ to_string (own "name" v) = Some name /\ plain name = true
    /\ to_string (own "description" v) = Some description /\ plain description = true
    /\ to_string (own "schedule" v) = Some schedule /\ plain schedule = true
    /\ card_of StringToNumber v =
         Some {| className := "activity-card";
                 innerHTML := card_markup name description schedule
                                (Z_to_string (integer m - integer c)) |}
    /\ renders StringToNumber v = true.
Proof.
  intros Hv.
  destruct (is_activity_fields v Hv)
    as (fields & m & c & name & description & schedule & key & -> & Hm & Hm0 & Hc & Hc0
        & Hname & Hname' & Hdesc & Hdesc' & Hsched & Hsched' & Hid).
  exists fields, m, c, name, description, schedule.
  assert (Hcard : card_of StringToNumber (VObj fields) =
            Some {| className := "activity-card";
                    innerHTML := card_markup name description schedule
                                   (Z_to_string (integer m - integer c)) |}).
  { unfold card_of. cbn [has_properties]. rewrite Hname, Hdesc, Hsched.
    unfold own. rewrite Hm, Hc. unfold js_minus.
    cbn [default from_option Datatypes.id to_number number_to_string].
    now rewrite (count_difference_is_exact m c Hm0 Hc0). }
  repeat split; auto.
  unfold renders. rewrite Hcard. unfold option_of. cbn [has_properties].
  rewrite Hid. destruct (nullable_of_printable _ _ Hname) as [label ->].
  reflexivity.
Qed.

Lemma activities_render (acts : list value) :
  forallb is_activity acts = true -> forallb (renders StringToNumber) acts = true.
Proof.
  induction acts as [| v acts IH]; [reflexivity |]. cbn.
  intros H. apply andb_prop in H as [Hv Hacts].
  destruct (activity_card v Hv) as (? & ? & ? & ? & ? & ? & _ & _ & _ & _ & _ & _ & _
                                    & _ & _ & _ & ->).
  now apply IH.
Qed.

Lemma forallb_lookup {A} (f : A -> bool) (l : list A) (i : nat) (x : A) :
  forallb f l = true -> l !! i = Some x -> f x = true.
Proof.
  revert i. induction l as [| y l IH]; intros i Hall Hi; [discriminate |].
  cbn in Hall. apply andb_prop in Hall as [Hy Hl].
  destruct i as [| i]; cbn in Hi.
  - now injection Hi as <-.
  - eauto.
Qed.



(** C8: when GET /activities fails in transit, or its response is not
    JSON, the list is replaced by the one failed-to-load message, the
    dropdown is left as it was, and [fetchActivities] completes without an
    exception reaching its caller. *)
Theorem C8_fetch_failure (r : fetch_result) (p : page) :
  r = NetworkFailure \/ (exists resp, r = Responded resp /\ json resp = None) ->
  let result := fetchActivities_resume StringToNumber r p in
  fst result = Normal tt
  /\ activitiesList (snd result) =
       {| markup := "<p>Failed to load activities. Please try again later.</p>";
          appended := [] |}
  /\ activitySelect (snd result) = activitySelect p.
Proof.
  intros [-> | (resp & -> & Hjson)]; unfold fetchActivities_resume; js_unfold;
    cbn; [| rewrite Hjson]; cbn; auto.
Qed.


End ActivityList.


(** The card drawn for the sample activity: 12 - 5 = 7 spots left. *)
Example chess_card :
  appended (activitiesList
    (snd (fetchActivities_resume no_text_numbers (http 200 (VArr [chess])) sample_page)))
  = [{| className := "activity-card";
        innerHTML :=
          LF +:+ "          <h4>Chess Club</h4>" +:+
          LF +:+ "          <p>Learn strategies</p>" +:+
          LF +:+ "          <p><strong>Schedule:</strong> Fridays</p>" +:+
          LF +:+ "          <p><strong>Availability:</strong> 7 spots left</p>" +:+
          LF +:+ "        " |}].
Proof. vm_compute. reflexivity. Qed.

(** An activity whose [name] is an object with a [toString] of its own
    cannot be put into the template: line 22 throws and the list shows the
    failed-to-load message. *)
Example name_that_does_not_print :
  activitiesList
    (snd (fetchActivities_resume no_text_numbers (http 200 (VArr [odd_activity]))
            sample_page))
  = {| markup := failed_to_load; appended := [] |}.
Proof. vm_compute. reflexivity. Qed.

Lemma C8_fetch_failure_witness :
  (http_no_json 502 = NetworkFailure
   \/ (exists resp, http_no_json 502 = Responded resp /\ json resp = None))
  /\ let result := fetchActivities_resume no_text_numbers (http_no_json 502) sample_page in
     fst result = Normal tt
     /\ activitiesList (snd result) =
          {| markup := "<p>Failed to load activities. Please try again later.</p>";
             appended := [] |}
     /\ activitySelect (snd result) = activitySelect sample_page.
Proof.
  assert (H : http_no_json 502 = NetworkFailure
              \/ (exists resp, http_no_json 502 = Responded resp /\ json resp = None)).
  { right. eexists. split; reflexivity. }
  split; [exact H |].
  exact (C8_fetch_failure no_text_numbers (http_no_json 502) sample_page H).
Defined.

(** C1 fails on the code: [fetchActivities] empties the list (line 12) but
    never the dropdown, to which line 34 only appends.  The page loads and
    the server lists one activity; a visitor signs up, which refreshes the
    list; the server lists the same activity again.  The list then holds
    one card, the dropdown two options for the one activity. *)
Theorem C1_dropdown_is_not_cleared :
  let listing := http 200 (VArr [chess]) in
  let loaded := run no_text_numbers [DOMContentLoaded; Settled 0 listing] sample_page in
  let refreshed :=
    run no_text_numbers
      [SubmitSignup;
       Settled 0 (http 200 (VObj {["message" := VStr "Signed up"]}));
       Settled 0 listing]
      loaded in
  activitySelect loaded =
    [{| option_value := "1"; option_textContent := "Chess Club" |}]
  /\ length (appended (activitiesList refreshed)) = 1%nat
  /\ activitySelect refreshed =
       [{| option_value := "1"; option_textContent := "Chess Club" |};
        {| option_value := "1"; option_textContent := "Chess Club" |}].
Proof. vm_compute. auto. Qed.

Lemma hidden_classList_add (a : status_area) :
  hidden (classList_add "hidden" a) = true.
Proof.
  unfold hidden, classList_add. cbn [classList].
  destruct (existsb (String.eqb "hidden") (classList a)) eqn:H; [exact H |].
  rewrite existsb_app. cbn [existsb]. rewrite String.eqb_refl.
  now rewrite orb_true_r.
Qed.

Lemma run_callbacks_cons (due : N) (cb : callback) (cbs : list (N * callback))
    (p : page) :
  run_callbacks ((due, cb) :: cbs) p = run_callbacks cbs (snd (run_callback cb p)).
Proof. destruct cb; reflexivity. Qed.

(** Firing timers can only hide: a status area is hidden afterwards iff it
    was hidden before or one of the fired timers hides it; its text stays. *)
Lemma run_callbacks_effect (cbs : list (N * callback)) (p : page) :
  let p' := snd (run_callbacks cbs p) in
  hidden (regMessageDiv p') = hidden (regMessageDiv p) || existsb hides_reg_message cbs
  /\ hidden (messageDiv p') = hidden (messageDiv p) || existsb hides_message cbs
  /\ textContent (regMessageDiv p') = textContent (regMessageDiv p)
  /\ textContent (messageDiv p') = textContent (messageDiv p).
Proof.
  revert p. induction cbs as [| [due cb] cbs IH]; intros p; cbn zeta.
  - cbn [run_callbacks existsb]. unfold ret. cbn [snd].
    now rewrite !orb_false_r.
  - rewrite run_callbacks_cons.
    destruct (IH (snd (run_callback cb p))) as (H1 & H2 & H3 & H4).
    rewrite H1, H2, H3, H4. cbn [existsb].
    destruct cb; unfold hides_reg_message, hides_message; cbn [snd];
      change (regMessageDiv (snd (run_callback HideRegMessage p)))
        with (classList_add "hidden" (regMessageDiv p));
      change (messageDiv (snd (run_callback HideRegMessage p)))
        with (messageDiv p);
      change (regMessageDiv (snd (run_callback HideMessage p)))
        with (regMessageDiv p);
      change (messageDiv (snd (run_callback HideMessage p)))
        with (classList_add "hidden" (messageDiv p));
      rewrite hidden_classList_add; cbn [orb];
      rewrite ?orb_true_r; auto.
Qed.

Lemma elapse_run (ms : N) (p : page) :
  elapse ms p =
    run_callbacks
      (List.filter (fun t => (fst t <=? clock p + ms)%N) (timers p))
      (with_timers (List.filter (fun t => negb (fst t <=? clock p + ms)%N))
         (with_clock (fun t => (t + ms)%N) p)).
Proof. reflexivity. Qed.

(** After [ms] milliseconds a status area is hidden iff it was hidden
    before or a timer hiding it came due. *)
Lemma elapse_hidden (ms : N) (p : page) :
  let p' := snd (elapse ms p) in
  let due := List.filter (fun t => (fst t <=? clock p + ms)%N) (timers p) in
  hidden (regMessageDiv p') = hidden (regMessageDiv p) || existsb hides_reg_message due
  /\ hidden (messageDiv p') = hidden (messageDiv p) || existsb hides_message due
  /\ textContent (regMessageDiv p') = textContent (regMessageDiv p)
  /\ textContent (messageDiv p') = textContent (messageDiv p).
Proof.
  cbn zeta. rewrite elapse_run.
  match goal with |- context [run_callbacks ?l ?q] =>
    destruct (run_callbacks_effect l q) as (H1 & H2 & H3 & H4) end.
  rewrite H1, H2, H3, H4. auto.
Qed.

Lemma due_timer_fires (f : N * callback -> bool) (now : N) (cb : callback)
    (l : list (N * callback)) :
  f (now, cb) = true ->
  existsb f (List.filter (fun t => (fst t <=? now)%N) (l ++ [(now, cb)])) = true.
Proof.
  intros Hf. rewrite List.filter_app, existsb_app. cbn [List.filter fst].
  rewrite N.leb_refl. cbn [existsb]. rewrite Hf. now rewrite orb_true_r.
Qed.

Lemma none_due_hides (f : N * callback -> bool) (now : N)
    (l : list (N * callback)) :
  existsb f l = false ->
  existsb f (List.filter (fun t => (fst t <=? now)%N) l) = false.
Proof.
  induction l as [| t l IH]; [reflexivity |]. cbn [existsb List.filter].
  intros Hl. apply orb_false_elim in Hl as [Ht Hl].
  destruct (fst t <=? now)%N; cbn [existsb]; rewrite ?Ht; auto.
Qed.

Lemma shown_text (v : value) (fallback : string) :
  printable v = true ->
  exists text, nullable_DOMString (js_or v (VStr fallback)) = Some text.
Proof.
  unfold printable. intros Hv. rewrite js_or_text.
  destruct (truthy v); [| eauto]. destruct (to_string v); [eauto | discriminate].
Qed.

Lemma shown_nullable (v : value) :
  printable v = true -> exists text, nullable_DOMString v = Some text.
Proof.
  unfold printable. destruct (to_string v) as [t |] eqn:Hv; [| discriminate].
  intros _. destruct v; cbn in *; eauto.
Qed.

(** After an answer that can be shown the registration handler sets its
    timer ... *)
Lemma registerForm_resume_timer (resp : response) (body : value) (p : page) :
  json resp = Some body ->
  ok resp = true
  \/ (has_properties body = true /\ printable (own "detail" body) = true) ->
  let p' := snd (registerForm_resume (Responded resp) p) in
  timers p' = timers p ++ [((clock p + 5000)%N, HideRegMessage)]
  /\ clock p' = clock p
  /\ hidden (regMessageDiv p') = false.
Proof.
  intros Hjson Hcase. cbn zeta. destruct (ok resp) eqn:Hok.
  - rewrite (registerForm_resume_ok resp body p Hok Hjson). cbn. auto.
  - destruct Hcase as [? | [Hbody Hdetail]]; [discriminate |].
    destruct (shown_text _ "Registration failed" Hdetail) as [text Htext].
    rewrite (registerForm_resume_rejected resp body text p Hok Hjson Hbody Htext).
    cbn. auto.
Qed.

(** ... and 5000 ms later the status area is hidden. *)
Lemma register_message_hidden_after_5000ms (resp : response) (body : value)
    (p : page) :
  json resp = Some body ->
  ok resp = true
  \/ (has_properties body = true /\ printable (own "detail" body) = true) ->
  let p' := snd (registerForm_resume (Responded resp) p) in
  hidden (regMessageDiv p') = false
  /\ hidden (regMessageDiv (snd (elapse 5000 p'))) = true.
Proof.
  intros Hjson Hcase. cbn zeta.
  destruct (registerForm_resume_timer resp body p Hjson Hcase) as (Ht & Hc & Hh).
  split; [exact Hh |].
  destruct (elapse_hidden 5000 (snd (registerForm_resume (Responded resp) p)))
    as (H & _).
  rewrite H, Ht, Hc. rewrite due_timer_fires by reflexivity.
  now rewrite orb_true_r.
Qed.

(** The [catch] block of the registration handler sets no timer: unless a
    timer of an earlier submission is still pending, its message stays on
    display however much time goes by. *)
Lemma register_failure_stays_shown (r : fetch_result) (p : page) (ms : N) :
  r = NetworkFailure \/ (exists resp, r = Responded resp /\ json resp = None) ->
  existsb hides_reg_message (timers p) = false ->
  let p' := snd (elapse ms (snd (registerForm_resume r p))) in
  hidden (regMessageDiv p') = false
  /\ textContent (regMessageDiv p') = register_failed_text.
Proof.
  intros Hr Hnone. cbn zeta.
  destruct (registerForm_resume_caught r p Hr) as (Hmsg & _ & Ht & _).
  destruct (elapse_hidden ms (snd (registerForm_resume r p))) as (H & _ & Htext & _).
  rewrite H, Htext, Hmsg, Ht. split; [| reflexivity].
  now rewrite (none_due_hides _ _ _ Hnone).
Qed.


(** The signup handler does the same on its paths. *)
Lemma signupForm_resume_caught (r : fetch_result) (p : page) :
  r = NetworkFailure \/ (exists resp, r = Responded resp /\ json resp = None) ->
  let p' := snd (signupForm_resume r p) in
  messageDiv p' = {| textContent := signup_failed_text; classList := ["error"] |}
  /\ timers p' = timers p.
Proof.
  intros Hr. cbn zeta. rewrite (signupForm_resume_caught_page r p).
  - cbn. auto.
  - destruct Hr as [-> | (resp & -> & Hjson)]; [now left | right; eauto].
Qed.

Lemma signupForm_resume_timer (resp : response) (body : value) (p : page) :
  json resp = Some body -> has_properties body = true ->
  printable (own (if ok resp then "message" else "detail") body) = true ->
  let p' := snd (signupForm_resume (Responded resp) p) in
  timers p' = timers p ++ [((clock p + 5000)%N, HideMessage)]
  /\ clock p' = clock p
  /\ hidden (messageDiv p') = false.
Proof.
  intros Hjson Hbody Hshown. cbn zeta. destruct (ok resp) eqn:Hok.
  - destruct (shown_nullable _ Hshown) as [text Htext].
    rewrite (signupForm_resume_ok resp body text p Hok Hjson Hbody Htext).
    cbn. auto.
  - destruct (shown_text _ "An error occurred" Hshown) as [text Htext].
    rewrite (signupForm_resume_rejected resp body text p Hok Hjson Hbody Htext).
    cbn. auto.
Qed.

Lemma signup_message_hidden_after_5000ms (resp : response) (body : value)
    (p : page) :
  json resp = Some body -> has_properties body = true ->
  printable (own (if ok resp then "message" else "detail") body) = true ->
  let p' := snd (signupForm_resume (Responded resp) p) in
  hidden (messageDiv p') = false
  /\ hidden (messageDiv (snd (elapse 5000 p'))) = true.
Proof.
  intros Hjson Hbody Hshown. cbn zeta.
  destruct (signupForm_resume_timer resp body p Hjson Hbody Hshown)
    as (Ht & Hc & Hh).
  split; [exact Hh |].
  destruct (elapse_hidden 5000 (snd (signupForm_resume (Responded resp) p)))
    as (_ & H & _).
  rewrite H, Ht, Hc. rewrite due_timer_fires by reflexivity.
  now rewrite orb_true_r.
Qed.

Lemma signup_failure_stays_shown (r : fetch_result) (p : page) (ms : N) :
  r = NetworkFailure \/ (exists resp, r = Responded resp /\ json resp = None) ->
  existsb hides_message (timers p) = false ->
  let p' := snd (elapse ms (snd (signupForm_resume r p))) in
  hidden (messageDiv p') = false
  /\ textContent (messageDiv p') = signup_failed_text.
Proof.
  intros Hr Hnone. cbn zeta.
  destruct (signupForm_resume_caught r p Hr) as (Hmsg & Ht).
  destruct (elapse_hidden ms (snd (signupForm_resume r p))) as (_ & H & _ & Htext).
  rewrite H, Htext, Hmsg, Ht. split; [| reflexivity].
  now rewrite (none_due_hides _ _ _ Hnone).
Qed.

(** C2 fails on the code for the third outcome.  After an answer from the
    server the handlers set a timer and the status area is hidden 5000 ms
    later; their [catch] blocks (lines 88-93 and 133-138) show the message
    and set no timer.  A registration and a signup whose requests fail in
    transit leave both messages on display after 5000 ms, and after an
    hour; the same registration answered with status 400 is hidden after
    5000 ms. *)
Theorem C2_failure_message_is_not_hidden :
  let failed :=
    run no_text_numbers
      [SubmitRegister; Settled 0 NetworkFailure;
       SubmitSignup; Settled 0 NetworkFailure]
      sample_page in
  let later := run no_text_numbers [Elapsed 5000] failed in
  let much_later := run no_text_numbers [Elapsed 3600000] later in
  let rejected :=
    run no_text_numbers
      [SubmitRegister;
       Settled 0 (http 400 (VObj {["detail" := VStr "Email already registered"]}));
       Elapsed 5000]
      sample_page in
  timers failed = []
  /\ textContent (regMessageDiv later) = "Failed to register. Please try again."
  /\ hidden (regMessageDiv later) = false
  /\ textContent (messageDiv later) = "Failed to sign up. Please try again."
  /\ hidden (messageDiv later) = false
  /\ hidden (regMessageDiv much_later) = false
  /\ hidden (messageDiv much_later) = false
  /\ textContent (regMessageDiv rejected) = "Email already registered"
  /\ hidden (regMessageDiv rejected) = true.
Proof. vm_compute. auto 10. Qed.


(** ** Further facts about the list *)

(** On its success path [fetchActivities] only ever adds to the dropdown. *)
Lemma fetchActivities_appends_options (StringToNumber : string -> option safe_integer)
    (resp : response) (acts : list value) (p : page) :
  json resp = Some (VArr acts) ->
  forallb is_activity acts = true ->
  activitySelect (snd (fetchActivities_resume StringToNumber (Responded resp) p))
  = activitySelect p ++ omap option_of acts.
Proof.
  intros Hjson Hacts.
  rewrite (fetchActivities_resume_array StringToNumber resp acts p Hjson).
  now rewrite (activities_render StringToNumber acts Hacts).
Qed.

(** An array with a [null] element is not an array of activities: the
    callback throws on the element and the [catch] block replaces the list
    by the failed-to-load message. *)
Example null_element :
  activitiesList
    (snd (fetchActivities_resume no_text_numbers (http 200 (VArr [chess; VNull]))
            sample_page))
  = {| markup := failed_to_load; appended := [] |}.
Proof. vm_compute. reflexivity. Qed.

(** * Further properties of the script *)

(** ** [fetchActivities] on every outcome *)

Section ActivityListOutcomes.

Variable StringToNumber : string -> option safe_integer.

Lemma rendered_stops (pre post : list value) (v : value) :
  forallb (renders StringToNumber) pre = true ->
  renders StringToNumber v = false ->
  rendered StringToNumber (pre ++ v :: post) = pre
  /\ forallb (renders StringToNumber) (pre ++ v :: post) = false.
Proof.
  intros Hpre Hv. induction pre as [| x pre IH]; cbn.
  - now rewrite Hv.
  - cbn in Hpre. destruct (renders StringToNumber x); [| discriminate].
    destruct (IH Hpre) as [-> ->]. auto.
Qed.

Lemma js_minus_undefined (a b : value) (x : number) :
  a = VUndefined \/ b = VUndefined ->
  js_minus StringToNumber a b = Some x -> x = NaN.
Proof.
  unfold js_minus. intros [-> | ->]; cbn.
  - destruct (to_number StringToNumber b); congruence.
  - destruct (to_number StringToNumber a) as [[] |]; congruence.
Qed.

(** X1: whatever the request for the activities settles to,
    [fetchActivities] completes without an exception reaching its caller;
    it leaves the forms, both status areas, the timers and the requests
    alone; it never removes an option from the dropdown; and the list ends
    up either holding cards only or holding the failed-to-load message and
    no card. *)
Theorem X1_fetchActivities_on_any_outcome (r : fetch_result) (p : page) :
  let result := fetchActivities_resume StringToNumber r p in
  fst result = Normal tt
  /\ outside_the_list_unchanged p (snd result)
  /\ (exists added, activitySelect (snd result) = activitySelect p ++ added)
  /\ (markup (activitiesList (snd result)) = ""
      \/ activitiesList (snd result) = {| markup := failed_to_load; appended := [] |}).
Proof.
  cbn zeta.
  assert (Hfail : forall q,
            fetchActivities_resume StringToNumber r p =
              (Normal tt,
               with_console (fun l => l ++ ["Error fetching activities:"])
                 (with_activitiesList
                    (fun _ => {| markup := failed_to_load; appended := [] |}) q)) ->
            q = p ->
            fst (fetchActivities_resume StringToNumber r p) = Normal tt
            /\ outside_the_list_unchanged p
                 (snd (fetchActivities_resume StringToNumber r p))
            /\ (exists added,
                  activitySelect (snd (fetchActivities_resume StringToNumber r p))
                  = activitySelect p ++ added)
            /\ (markup (activitiesList
                          (snd (fetchActivities_resume StringToNumber r p))) = ""
                \/ activitiesList (snd (fetchActivities_resume StringToNumber r p))
                   = {| markup := failed_to_load; appended := [] |})).
  { intros q -> ->. unfold outside_the_list_unchanged. cbn.
    repeat split; auto. exists []. now rewrite app_nil_r. }
  destruct r as [| resp].
  - apply (Hfail p); [| reflexivity].
    apply fetchActivities_resume_no_array. now left.
  - destruct (json resp) as [v |] eqn:Hjson.
    + destruct (is_array v) eqn:Harr.
      * destruct v; try discriminate.
        rewrite (fetchActivities_resume_array StringToNumber resp items p Hjson).
        unfold outside_the_list_unchanged.
        destruct (forallb (renders StringToNumber) items); cbn; repeat split; eauto.
      * apply (Hfail p); [| reflexivity].
        apply fetchActivities_resume_no_array. right. eauto 6.
    + apply (Hfail p); [| reflexivity].
      apply fetchActivities_resume_no_array. right. eauto.
Qed.

(** X2: a response whose body is JSON but not an array (an object, a
    number, a string, [null]), whatever its status, makes [forEach] fail:
    the list shows the failed-to-load message alone, the dropdown is as it
    was, and the error is logged. *)
Theorem X2_body_that_is_no_array (resp : response) (v : value) (p : page) :
  json resp = Some v -> is_array v = false ->
  let p' := snd (fetchActivities_resume StringToNumber (Responded resp) p) in
  activitiesList p' =
    {| markup := "<p>Failed to load activities. Please try again later.</p>";
       appended := [] |}
  /\ activitySelect p' = activitySelect p
  /\ console p' = console p ++ ["Error fetching activities:"].
Proof.
  intros Hjson Hv. cbn zeta.
  rewrite (fetchActivities_resume_no_array StringToNumber (Responded resp) p) by (right; eauto 6).
  cbn. auto.
Qed.

(** X3: when rendering one element of the array throws -- the element is
    [null], or one of its values does not convert to text or to a number
    -- rendering stops there: the list shows the failed-to-load message
    alone, so the cards drawn for the elements ahead of it are gone, while
    the dropdown keeps the options added for those elements and gets none
    for the element itself or for those after it. *)
Theorem X3_element_that_fails_to_render (resp : response)
    (before after : list value) (bad : value) (p : page) :
  json resp = Some (VArr (before ++ bad :: after)) ->
  forallb (renders StringToNumber) before = true ->
  renders StringToNumber bad = false ->
  let p' := snd (fetchActivities_resume StringToNumber (Responded resp) p) in
  activitiesList p' =
    {| markup := "<p>Failed to load activities. Please try again later.</p>";
       appended := [] |}
  /\ activitySelect p' = activitySelect p ++ omap option_of before
  /\ length (activitySelect p') = (length (activitySelect p) + length before)%nat
  /\ console p' = console p ++ ["Error fetching activities:"].
Proof.
  intros Hjson Hbefore Hbad. cbn zeta.
  destruct (rendered_stops before after bad Hbefore Hbad) as [Hr Hall].
  rewrite (fetchActivities_resume_array StringToNumber resp _ p Hjson), Hall, Hr.
  destruct (renders_cards StringToNumber before Hbefore) as [_ Hoptions].
  cbn. repeat split.
  now rewrite length_app, omap_length_all.
Qed.

(** X4: two refreshes in a row, both answered with arrays whose elements
    all render.  The list is what the second answer alone would have
    given: it holds the cards of the second answer only, one per element.
    The dropdown holds what it held before, then the options of the first
    answer, then those of the second. *)
Theorem X4_two_refreshes (first second : response) (acts1 acts2 : list value)
    (p : page) :
  json first = Some (VArr acts1) ->
  forallb (renders StringToNumber) acts1 = true ->
  json second = Some (VArr acts2) ->
  forallb (renders StringToNumber) acts2 = true ->
  let p1 := snd (fetchActivities_resume StringToNumber (Responded first) p) in
  let p2 := snd (fetchActivities_resume StringToNumber (Responded second) p1) in
  activitiesList p2 =
    activitiesList (snd (fetchActivities_resume StringToNumber (Responded second) p))
  /\ markup (activitiesList p2) = ""
  /\ length (appended (activitiesList p2)) = length acts2
  /\ activitySelect p2 =
       activitySelect p ++ omap option_of acts1 ++ omap option_of acts2
  /\ length (activitySelect p2) =
       (length (activitySelect p) + length acts1 + length acts2)%nat.
Proof.
  intros H1 Hall1 H2 Hall2. cbn zeta.
  rewrite !(fetchActivities_resume_array StringToNumber second acts2 _ H2), Hall2.
  rewrite (fetchActivities_resume_array StringToNumber first acts1 p H1), Hall1.
  destruct (renders_cards StringToNumber acts1 Hall1) as [_ Ho1].
  destruct (renders_cards StringToNumber acts2 Hall2) as [Hc2 Ho2].
  cbn. rewrite <- app_assoc. repeat split.
  - now apply omap_length_all.
  - rewrite !length_app, !omap_length_all by assumption. lia.
Qed.

(** X5: an activity that lacks [max_participants] or
    [current_participants], in an array whose elements all render, still
    gets its card, and the card displays, below the activity's plain
    texts, "NaN spots left". *)
Theorem X5_missing_count (resp : response) (acts : list value) (p : page)
    (i : nat) (fields : gmap string value) (name description schedule : string) :
  json resp = Some (VArr acts) ->
  forallb (renders StringToNumber) acts = true ->
  acts !! i = Some (VObj fields) ->
  fields !! "max_participants" = None \/ fields !! "current_participants" = None ->
  to_string (own "name" (VObj fields)) = Some name -> plain name = true ->
  to_string (own "description" (VObj fields)) = Some description ->
  plain description = true ->
  to_string (own "schedule" (VObj fields)) = Some schedule ->
  plain schedule = true ->
  let p' := snd (fetchActivities_resume StringToNumber (Responded resp) p) in
  exists card,
    appended (activitiesList p') !! i = Some card
    /\ innerHTML card = card_markup name description schedule "NaN"
    /\ text_content (innerHTML card) =
         LF +:+ "          " +:+ name +:+
         LF +:+ "          " +:+ description +:+
         LF +:+ "          Schedule: " +:+ schedule +:+
         LF +:+ "          Availability: NaN spots left" +:+
         LF +:+ "        ".
Proof.
  intros Hjson Hall Hi Hmissing Hname Hpn Hdesc Hpd Hsched Hps. cbn zeta.
  rewrite (fetchActivities_resume_array StringToNumber resp acts p Hjson), Hall.
  cbn [snd]. destruct (renders_cards StringToNumber acts Hall) as [Hcards _].
  pose proof (forallb_lookup _ _ _ _ Hcards Hi) as Hcard.
  assert (Hlook : appended (activitiesList
            (with_activitySelect (fun l => l ++ omap option_of acts)
               (with_activitiesList
                  (fun _ => {| markup := "";
                               appended := omap (card_of StringToNumber) acts |}) p)))
          !! i = card_of StringToNumber (VObj fields))
    by exact (omap_lookup_all _ acts i (VObj fields) Hcards Hi).
  rewrite Hlook. revert Hcard. unfold card_of. cbn [has_properties].
  rewrite Hname, Hdesc, Hsched.
  destruct (js_minus StringToNumber (own "max_participants" (VObj fields))
              (own "current_participants" (VObj fields))) as [spots |] eqn:Hspots;
    [| discriminate].
  intros _.
  assert (spots = NaN) as ->.
  { apply (js_minus_undefined (own "max_participants" (VObj fields))
             (own "current_participants" (VObj fields))); [| exact Hspots].
    unfold own. destruct Hmissing as [-> | ->]; cbn; auto. }
  eexists. split; [reflexivity |]. cbn [innerHTML number_to_string].
  split; [reflexivity |].
  rewrite text_content_card_markup by auto. reflexivity.
Qed.

End ActivityListOutcomes.

Lemma X2_body_that_is_no_array_witness :
  let body := VObj {["detail" := VStr "Not Found"]} in
  let resp := {| status := 404; json := Some body |} in
  (json resp = Some body /\ is_array body = false)
  /\ let p' := snd (fetchActivities_resume no_text_numbers (Responded resp) sample_page) in
     activitiesList p' =
       {| markup := "<p>Failed to load activities. Please try again later.</p>";
          appended := [] |}
     /\ activitySelect p' = activitySelect sample_page
     /\ console p' = console sample_page ++ ["Error fetching activities:"].
Proof.
  split; [split; reflexivity |].
  exact (X2_body_that_is_no_array no_text_numbers
           {| status := 404; json := Some (VObj {["detail" := VStr "Not Found"]}) |}
           (VObj {["detail" := VStr "Not Found"]}) sample_page eq_refl eq_refl).
Defined.

Lemma X3_element_that_fails_to_render_witness :
  let resp := {| status := 200;
                 json := Some (VArr ([chess] ++ odd_activity :: [chess])) |} in
  (json resp = Some (VArr ([chess] ++ odd_activity :: [chess]))
   /\ forallb (renders no_text_numbers) [chess] = true
   /\ renders no_text_numbers odd_activity = false)
  /\ let p' := snd (fetchActivities_resume no_text_numbers (Responded resp) sample_page) in
     activitiesList p' =
       {| markup := "<p>Failed to load activities. Please try again later.</p>";
          appended := [] |}
     /\ activitySelect p' =
          [{| option_value := "1"; option_textContent := "Chess Club" |}]
     /\ length (activitySelect p') = 1%nat
     /\ console p' = ["Error fetching activities:"].
Proof.
  split; [repeat split; reflexivity |].
  exact (X3_element_that_fails_to_render no_text_numbers
           {| status := 200;
              json := Some (VArr ([chess] ++ odd_activity :: [chess])) |}
           [chess] [chess] odd_activity sample_page eq_refl eq_refl eq_refl).
Defined.

Lemma X4_two_refreshes_witness :
  let first := {| status := 200; json := Some (VArr [chess]) |} in
  let second := {| status := 200; json := Some (VArr [chess; chess]) |} in
  (json first = Some (VArr [chess])
   /\ forallb (renders no_text_numbers) [chess] = true
   /\ json second = Some (VArr [chess; chess])
   /\ forallb (renders no_text_numbers) [chess; chess] = true)
  /\ let p1 := snd (fetchActivities_resume no_text_numbers (Responded first) sample_page) in
     let p2 := snd (fetchActivities_resume no_text_numbers (Responded second) p1) in
     activitiesList p2 =
       activitiesList
         (snd (fetchActivities_resume no_text_numbers (Responded second) sample_page))
     /\ markup (activitiesList p2) = ""
     /\ length (appended (activitiesList p2)) = 2%nat
     /\ activitySelect p2 =
          [{| option_value := "1"; option_textContent := "Chess Club" |};
           {| option_value := "1"; option_textContent := "Chess Club" |};
           {| option_value := "1"; option_textContent := "Chess Club" |}]
     /\ length (activitySelect p2) = 3%nat.
Proof.
  split; [repeat split; reflexivity |].
  exact (X4_two_refreshes no_text_numbers
           {| status := 200; json := Some (VArr [chess]) |}
           {| status := 200; json := Some (VArr [chess; chess]) |}
           [chess] [chess; chess] sample_page eq_refl eq_refl eq_refl eq_refl).
Defined.

Lemma X5_missing_count_witness :
  let resp := {| status := 200; json := Some (VArr [VObj art_club_fields]) |} in
  (json resp = Some (VArr [VObj art_club_fields])
   /\ forallb (renders no_text_numbers) [VObj art_club_fields] = true
   /\ [VObj art_club_fields] !! 0%nat = Some (VObj art_club_fields)
   /\ (art_club_fields !! "max_participants" = None
       \/ art_club_fields !! "current_participants" = None)
   /\ to_string (own "name" (VObj art_club_fields)) = Some "Art Club"
   /\ plain "Art Club" = true
   /\ to_string (own "description" (VObj art_club_fields)) = Some "undefined"
   /\ to_string (own "schedule" (VObj art_club_fields)) = Some "undefined"
   /\ plain "undefined" = true)
  /\ let p' := snd (fetchActivities_resume no_text_numbers (Responded resp) sample_page) in
     exists card,
       appended (activitiesList p') !! 0%nat = Some card
       /\ innerHTML card = card_markup "Art Club" "undefined" "undefined" "NaN"
       /\ text_content (innerHTML card) =
            LF +:+ "          Art Club" +:+
            LF +:+ "          undefined" +:+
            LF +:+ "          Schedule: undefined" +:+
            LF +:+ "          Availability: NaN spots left" +:+
            LF +:+ "        ".
Proof.
  split; [repeat split; try reflexivity; right; reflexivity |].
  exact (X5_missing_count no_text_numbers
           {| status := 200; json := Some (VArr [VObj art_club_fields]) |}
           [VObj art_club_fields] sample_page 0%nat art_club_fields
           "Art Club" "undefined" "undefined"
           eq_refl eq_refl eq_refl (or_intror eq_refl)
           eq_refl eq_refl eq_refl eq_refl eq_refl eq_refl).
Defined.

(** ** Through the event loop *)

Lemma step_settled (StringToNumber : string -> option safe_integer) (p : page)
    (i : nat) (t : task) (r : fetch_result) :
  pending p !! i = Some t ->
  step StringToNumber p (Settled i r) =
    snd (resume StringToNumber t r (with_pending (delete i) p)).
Proof.
  intros H. unfold step, dispatch, bind, read, modify. now rewrite H.
Qed.

(** X6: the first load.  On a page whose dropdown is still empty and with
    no request under way, the load sends one GET /activities, and once an
    array whose elements all render is in, the list holds one card and the
    dropdown one option per element, in the order of the array: the option
    of an element carries the text of its [id] as its value and its [name]
    as its text. *)
Theorem X6_first_load (StringToNumber : string -> option safe_integer)
    (resp : response) (acts : list value) (p : page) :
  pending p = [] -> activitySelect p = [] ->
  json resp = Some (VArr acts) ->
  forallb (renders StringToNumber) acts = true ->
  let p' := run StringToNumber [DOMContentLoaded; Settled 0 (Responded resp)] p in
  requests p' =
    requests p ++ [{| url := "/activities"; method := "GET";
                      headers := []; body := None |}]
  /\ pending p' = []
  /\ length (activitySelect p') = length acts
  /\ length (appended (activitiesList p')) = length acts
  /\ (forall i fields id key name,
        acts !! i = Some (VObj fields) ->
        fields !! "id" = Some id -> to_string id = Some key ->
        fields !! "name" = Some (VStr name) ->
        activitySelect p' !! i =
          Some {| option_value := key; option_textContent := name |}).
Proof.
  intros Hpending Hselect Hjson Hall. cbn zeta.
  destruct (renders_cards StringToNumber acts Hall) as [Hcards Hoptions].
  unfold run. cbn [foldl].
  rewrite (step_settled StringToNumber _ 0 FetchActivities)
    by (cbn; now rewrite Hpending).
  cbn [resume].
  rewrite (fetchActivities_resume_array StringToNumber resp acts _ Hjson), Hall.
  cbn. rewrite Hpending, Hselect. cbn.
  rewrite !omap_length_all by assumption.
  repeat split.
  intros i fields id key name Hi Hid Hkey Hname.
  rewrite (omap_lookup_all _ acts i (VObj fields) Hoptions Hi).
  unfold option_of, own. cbn [has_properties]. rewrite Hid, Hname. cbn.
  now rewrite Hkey.
Qed.

Lemma X6_first_load_witness :
  let resp := {| status := 200; json := Some (VArr [chess]) |} in
  (pending sample_page = [] /\ activitySelect sample_page = []
   /\ json resp = Some (VArr [chess])
   /\ forallb (renders no_text_numbers) [chess] = true)
  /\ let p' := run no_text_numbers [DOMContentLoaded; Settled 0 (Responded resp)]
                 sample_page in
     requests p' = [{| url := "/activities"; method := "GET";
                       headers := []; body := None |}]
     /\ pending p' = []
     /\ length (activitySelect p') = 1%nat
     /\ length (appended (activitiesList p')) = 1%nat
     /\ activitySelect p' !! 0%nat =
          Some {| option_value := "1"; option_textContent := "Chess Club" |}.
Proof.
  split; [repeat split; reflexivity |].
  destruct (X6_first_load no_text_numbers
              {| status := 200; json := Some (VArr [chess]) |} [chess] sample_page
              eq_refl eq_refl eq_refl eq_refl) as (Hreq & Hpend & Hlen & Hcards & Hopt).
  split; [exact Hreq |]. split; [exact Hpend |]. split; [exact Hlen |].
  split; [exact Hcards |].
  exact (Hopt 0%nat _ (VNum #1) "1" "Chess Club" eq_refl eq_refl eq_refl eq_refl).
Defined.

(** ** The registration handler on every outcome *)

Lemma registerForm_resume_completes (r : fetch_result) (p : page) :
  fst (registerForm_resume r p) = Normal tt.
Proof.
  unfold registerForm_resume, try_catch.
  match goal with |- context [match ?b with _ => _ end] => destruct b as [[[] | e] p'] end;
    reflexivity.
Qed.

Lemma registerForm_resume_caught_page (r : fetch_result) (p : page) :
  r = NetworkFailure
  \/ (exists resp, r = Responded resp
                   /\ (json resp = None
                       \/ (ok resp = false
                           /\ exists body, json resp = Some body
                                /\ (has_properties body = false
                                    \/ nullable_DOMString
                                         (js_or (own "detail" body)
                                            (VStr "Registration failed"))
                                       = None)))) ->
  snd (registerForm_resume r p) =
    with_console (fun l => l ++ ["Error registering:"])
      (with_regMessageDiv
         (fun _ => {| textContent := register_failed_text; classList := ["error"] |})
         p).
Proof.
  intros [-> | (resp & -> & [Hjson | (Hok & body & Hjson & Hbody)])].
  - unfold registerForm_resume; js_unfold; cbn. destruct p; reflexivity.
  - unfold registerForm_resume; js_unfold; cbn. rewrite Hjson.
    destruct p; reflexivity.
  - exact (registerForm_resume_rejected_caught resp body p Hok Hjson Hbody).
Qed.

Lemma registerForm_resume_error_paths (r : fetch_result) (p : page) :
  register_accepted r = false ->
  exists text added,
    snd (registerForm_resume r p) =
      with_console (fun l => l ++ added)
        (with_timers (fun l => l ++ match added with
                                    | [] => [((clock p + 5000)%N, HideRegMessage)]
                                    | _ => []
                                    end)
           (with_regMessageDiv
              (fun _ => {| textContent := text; classList := ["error"] |}) p)).
Proof.
  intros Hr.
  assert (Hcaught :
            snd (registerForm_resume r p) =
              with_console (fun l => l ++ ["Error registering:"])
                (with_regMessageDiv
                   (fun _ => {| textContent := register_failed_text;
                                classList := ["error"] |}) p) ->
            exists text added,
              snd (registerForm_resume r p) =
                with_console (fun l => l ++ added)
                  (with_timers
                     (fun l => l ++ match added with
                                    | [] => [((clock p + 5000)%N, HideRegMessage)]
                                    | _ => []
                                    end)
                     (with_regMessageDiv
                        (fun _ => {| textContent := text; classList := ["error"] |})
                        p))).
  { intros ->. exists register_failed_text, ["Error registering:"].
    destruct p. page_goal. now rewrite !app_nil_r. }
  destruct r as [| resp].
  - apply Hcaught, registerForm_resume_caught_page. now left.
  - cbn in Hr. destruct (json resp) as [body |] eqn:Hjson.
    + rewrite andb_true_r in Hr. destruct (has_properties body) eqn:Hbody.
      * destruct (nullable_DOMString
                    (js_or (own "detail" body) (VStr "Registration failed")))
          as [text |] eqn:Htext.
        -- exists text, [].
           rewrite (registerForm_resume_rejected resp body text p Hr Hjson Hbody
                      Htext).
           destruct p. page_goal. now rewrite !app_nil_r.
        -- apply Hcaught, registerForm_resume_caught_page. right. eauto 8.
      * apply Hcaught, registerForm_resume_caught_page. right. eauto 8.
    + apply Hcaught, registerForm_resume_caught_page. right. eauto.
Qed.

Lemma registerForm_resume_clock_timers (r : fetch_result) (p : page) :
  clock (snd (registerForm_resume r p)) = clock p
  /\ exists added, timers (snd (registerForm_resume r p)) = timers p ++ added.
Proof.
  destruct (register_accepted r) eqn:Hr.
  - destruct r as [| resp]; [discriminate |]. cbn in Hr.
    apply andb_prop in Hr as [Hok Hjson].
    destruct (json resp) as [body |] eqn:Hbody; [| discriminate].
    rewrite (registerForm_resume_ok resp body p Hok Hbody). cbn. eauto.
  - destruct (registerForm_resume_error_paths r p Hr) as (text & added & ->).
    cbn. eauto.
Qed.

(** X7: whatever the request to /register settles to, the handler
    completes without an exception and leaves the status area on display.
    When the registration was accepted the area reads
    "Registration successful!" with class [success] and the form is
    emptied; on every other outcome the class is [error] and the form
    keeps its values.  So the form is reset exactly when success is
    shown. *)
Theorem X7_register_on_any_outcome (r : fetch_result) (p : page) :
  let result := registerForm_resume r p in
  let p' := snd result in
  fst result = Normal tt
  /\ hidden (regMessageDiv p') = false
  /\ (if register_accepted r
      then regMessageDiv p' =
             {| textContent := "Registration successful!"; classList := ["success"] |}
           /\ registerForm p' = empty_register_fields
      else classList (regMessageDiv p') = ["error"]
           /\ registerForm p' = registerForm p).
Proof.
  cbn zeta. destruct (register_accepted r) eqn:Hr.
  - destruct r as [| resp]; [discriminate |]. cbn in Hr.
    apply andb_prop in Hr as [Hok Hjson].
    destruct (json resp) as [body |] eqn:Hbody; [| discriminate].
    rewrite registerForm_resume_completes.
    rewrite (registerForm_resume_ok resp body p Hok Hbody). cbn. auto.
  - destruct (registerForm_resume_error_paths r p Hr) as (text & added & ->).
    rewrite registerForm_resume_completes. cbn. auto.
Qed.

(** X8: the registration handler keeps to its own form: on every outcome
    the signup form and its status area, the list, the dropdown, the
    requests sent and the functions waiting are as before, and no pending
    timer is dropped. *)
Theorem X8_register_frame (r : fetch_result) (p : page) :
  let p' := snd (registerForm_resume r p) in
  signupForm p' = signupForm p
  /\ messageDiv p' = messageDiv p
  /\ activitiesList p' = activitiesList p
  /\ activitySelect p' = activitySelect p
  /\ requests p' = requests p
  /\ pending p' = pending p
  /\ clock p' = clock p
  /\ exists added, timers p' = timers p ++ added.
Proof.
  cbn zeta. destruct (register_accepted r) eqn:Hr.
  - destruct r as [| resp]; [discriminate |]. cbn in Hr.
    apply andb_prop in Hr as [Hok Hjson].
    destruct (json resp) as [body |] eqn:Hbody; [| discriminate].
    rewrite (registerForm_resume_ok resp body p Hok Hbody). cbn.
    repeat split. eauto.
  - destruct (registerForm_resume_error_paths r p Hr) as (text & added & ->).
    cbn. repeat split. eauto.
Qed.

(** ** The hide timers, in full *)

Lemma leb_add_cancel (c a b : N) : (c + a <=? c + b)%N = (a <=? b)%N.
Proof.
  destruct (N.leb_spec a b) as [H | H].
  - apply N.leb_le. lia.
  - apply N.leb_gt. lia.
Qed.

Lemma due_timer_in (f : N * callback -> bool) (now : N) (t : N * callback)
    (l : list (N * callback)) :
  In t l -> (fst t <= now)%N -> f t = true ->
  existsb f (List.filter (fun t => (fst t <=? now)%N) l) = true.
Proof.
  intros Hin Hdue Hf. apply existsb_exists. exists t. split; [| exact Hf].
  apply List.filter_In. split; [exact Hin |]. now apply N.leb_le.
Qed.

Lemma run_callbacks_frame (cbs : list (N * callback)) (p : page) :
  let result := run_callbacks cbs p in
  fst result = Normal tt
  /\ only_classes_may_differ p (snd result)
  /\ clock (snd result) = clock p
  /\ timers (snd result) = timers p.
Proof.
  revert p. induction cbs as [| [due cb] cbs IH]; intros p; cbn zeta.
  - unfold only_classes_may_differ. cbn. auto 12.
  - rewrite run_callbacks_cons.
    destruct (IH (snd (run_callback cb p)))
      as (H0 & (H1 & H2 & H3 & H4 & H5 & H6 & H7 & H8 & H9) & H10 & H11).
    unfold only_classes_may_differ.
    rewrite H0, H1, H2, H3, H4, H5, H6, H7, H8, H9, H10, H11.
    destruct cb; cbn; auto 12.
Qed.

(** X9: a registration whose answer can be shown -- it was accepted, or it
    was rejected with a body that has properties and a [detail] that
    converts to text -- shows its message for 5000 ms: with no older hide
    timer pending, the status area is on display as long as less than
    5000 ms have gone by since the answer and hidden from then on, its
    text unchanged. *)
Theorem X9_register_message_lasts_5000ms (resp : response) (body : value)
    (p : page) (ms : N) :
  json resp = Some body ->
  ok resp = true
  \/ (has_properties body = true /\ printable (own "detail" body) = true) ->
  existsb hides_reg_message (timers p) = false ->
  let shown := snd (registerForm_resume (Responded resp) p) in
  let later := snd (elapse ms shown) in
  hidden (regMessageDiv later) = (5000 <=? ms)%N
  /\ textContent (regMessageDiv later) = textContent (regMessageDiv shown).
Proof.
  intros Hjson Hcase Hnone. cbn zeta.
  destruct (registerForm_resume_timer resp body p Hjson Hcase) as (Ht & Hc & Hh).
  destruct (elapse_hidden ms (snd (registerForm_resume (Responded resp) p)))
    as (H & _ & Htext & _).
  rewrite H, Htext, Hh, Ht, Hc. split; [| reflexivity].
  rewrite List.filter_app, existsb_app, (none_due_hides _ _ _ Hnone).
  cbn [List.filter fst orb]. rewrite leb_add_cancel.
  destruct (5000 <=? ms)%N; reflexivity.
Qed.

(** X10: the same for a signup whose answer can be shown: the body has
    properties and the text to show -- its [message] when [response.ok]
    is true, its [detail] otherwise -- converts to text. *)
Theorem X10_signup_message_lasts_5000ms (resp : response) (body : value)
    (p : page) (ms : N) :
  json resp = Some body -> has_properties body = true ->
  printable (own (if ok resp then "message" else "detail") body) = true ->
  existsb hides_message (timers p) = false ->
  let shown := snd (signupForm_resume (Responded resp) p) in
  let later := snd (elapse ms shown) in
  hidden (messageDiv later) = (5000 <=? ms)%N
  /\ textContent (messageDiv later) = textContent (messageDiv shown).
Proof.
  intros Hjson Hbody Hshown Hnone. cbn zeta.
  destruct (signupForm_resume_timer resp body p Hjson Hbody Hshown)
    as (Ht & Hc & Hh).
  destruct (elapse_hidden ms (snd (signupForm_resume (Responded resp) p)))
    as (_ & H & _ & Htext).
  rewrite H, Htext, Hh, Ht, Hc. split; [| reflexivity].
  rewrite List.filter_app, existsb_app, (none_due_hides _ _ _ Hnone).
  cbn [List.filter fst orb]. rewrite leb_add_cancel.
  destruct (5000 <=? ms)%N; reflexivity.
Qed.

(** X11: a pending hide timer is never cancelled.  If a timer of an earlier
    registration is still pending when a new answer (or failure) arrives,
    it fires at its own due time and hides the new message, however
    recently that was shown. *)
Theorem X11_older_timer_hides_new_message (r : fetch_result) (p : page)
    (due ms : N) :
  In (due, HideRegMessage) (timers p) ->
  (due <= clock p + ms)%N ->
  let shown := snd (registerForm_resume r p) in
  hidden (regMessageDiv shown) = false
  /\ hidden (regMessageDiv (snd (elapse ms shown))) = true.
Proof.
  intros Hin Hdue. cbn zeta.
  destruct (registerForm_resume_clock_timers r p) as (Hc & added & Ht).
  split.
  - destruct (register_accepted r) eqn:Hr.
    + destruct r as [| resp]; [discriminate |]. cbn in Hr.
      apply andb_prop in Hr as [Hok Hjson].
      destruct (json resp) as [body |] eqn:Hbody; [| discriminate].
      now rewrite (registerForm_resume_ok resp body p Hok Hbody).
    + destruct (registerForm_resume_error_paths r p Hr) as (text & l & ->).
      reflexivity.
  - destruct (elapse_hidden ms (snd (registerForm_resume r p))) as (H & _).
    rewrite H, Ht, Hc.
    rewrite (due_timer_in hides_reg_message _ (due, HideRegMessage));
      [now rewrite orb_true_r | apply in_or_app; now left | exact Hdue
      | reflexivity].
Qed.

(** X12: what the passing of time can do to the page.  The timer callbacks
    complete without an exception and only ever add the class [hidden]: a
    hidden status area stays hidden, and the texts, both forms, the list,
    the dropdown and the requests are as before.  The timers that came due
    are gone, and every timer left is due later than the new time. *)
Theorem X12_timers_only_hide (ms : N) (p : page) :
  let result := elapse ms p in
  let p' := snd result in
  fst result = Normal tt
  /\ only_classes_may_differ p p'
  /\ (hidden (regMessageDiv p) = true -> hidden (regMessageDiv p') = true)
  /\ (hidden (messageDiv p) = true -> hidden (messageDiv p') = true)
  /\ clock p' = (clock p + ms)%N
  /\ (forall t, In t (timers p') <-> In t (timers p) /\ (clock p' < fst t)%N).
Proof.
  cbn zeta. destruct (elapse_hidden ms p) as (Hreg & Hmsg & _).
  rewrite Hreg, Hmsg. rewrite elapse_run.
  match goal with |- context [run_callbacks ?l ?q] =>
    destruct (run_callbacks_frame l q) as (H0 & Hframe & Hclock & Htimers) end.
  rewrite H0, Hclock, Htimers. unfold only_classes_may_differ in Hframe |- *.
  split; [reflexivity |]. split; [exact Hframe |]. repeat split.
  - intros ->. reflexivity.
  - intros ->. reflexivity.
  - cbn in H. apply List.filter_In in H. tauto.
  - cbn in H. apply List.filter_In in H as [_ H].
    apply negb_true_iff, N.leb_gt in H. exact H.
  - intros [Hin Hlate]. cbn. apply List.filter_In. split; [exact Hin |].
    apply negb_true_iff, N.leb_gt. exact Hlate.
Qed.

Lemma X9_register_message_lasts_5000ms_witness :
  let body := VObj {["detail" := VStr "Email already registered"]} in
  let resp := {| status := 199; json := Some body |} in
  (json resp = Some body
   /\ (ok resp = true
       \/ (has_properties body = true /\ printable (own "detail" body) = true))
   /\ existsb hides_reg_message (timers sample_page) = false)
  /\ let shown := snd (registerForm_resume (Responded resp) sample_page) in
     (hidden (regMessageDiv (snd (elapse 4999 shown))) = false
      /\ textContent (regMessageDiv (snd (elapse 4999 shown)))
         = textContent (regMessageDiv shown))
     /\ (hidden (regMessageDiv (snd (elapse 5000 shown))) = true
         /\ textContent (regMessageDiv (snd (elapse 5000 shown)))
            = textContent (regMessageDiv shown)).
Proof.
  split; [repeat split; try reflexivity; right; split; reflexivity |].
  split.
  - exact (X9_register_message_lasts_5000ms
             {| status := 199;
                json := Some (VObj {["detail" := VStr "Email already registered"]}) |}
             (VObj {["detail" := VStr "Email already registered"]}) sample_page 4999
             eq_refl (or_intror (conj eq_refl eq_refl)) eq_refl).
  - exact (X9_register_message_lasts_5000ms
             {| status := 199;
                json := Some (VObj {["detail" := VStr "Email already registered"]}) |}
             (VObj {["detail" := VStr "Email already registered"]}) sample_page 5000
             eq_refl (or_intror (conj eq_refl eq_refl)) eq_refl).
Defined.

Lemma X10_signup_message_lasts_5000ms_witness :
  let body := VObj {["message" := VStr "Signed up"]} in
  let resp := {| status := 200; json := Some body |} in
  (json resp = Some body /\ has_properties body = true
   /\ printable (own (if ok resp then "message" else "detail") body) = true
   /\ existsb hides_message (timers sample_page) = false)
  /\ let shown := snd (signupForm_resume (Responded resp) sample_page) in
     (hidden (messageDiv (snd (elapse 4999 shown))) = false
      /\ textContent (messageDiv (snd (elapse 4999 shown)))
         = textContent (messageDiv shown))
     /\ (hidden (messageDiv (snd (elapse 5000 shown))) = true
         /\ textContent (messageDiv (snd (elapse 5000 shown)))
            = textContent (messageDiv shown)).
Proof.
  split; [repeat split; reflexivity |].
  split.
  - exact (X10_signup_message_lasts_5000ms
             {| status := 200; json := Some (VObj {["message" := VStr "Signed up"]}) |}
             (VObj {["message" := VStr "Signed up"]}) sample_page 4999
             eq_refl eq_refl eq_refl eq_refl).
  - exact (X10_signup_message_lasts_5000ms
             {| status := 200; json := Some (VObj {["message" := VStr "Signed up"]}) |}
             (VObj {["message" := VStr "Signed up"]}) sample_page 5000
             eq_refl eq_refl eq_refl eq_refl).
Defined.

(** A page on which a registration was answered 4000 ms ago: its hide
    timer, set at time 0, is due at 5000. *)
Lemma X11_older_timer_hides_new_message_witness :
  let p := with_clock (fun _ => 4000%N)
             (with_timers (fun _ => [(5000%N, HideRegMessage)]) sample_page) in
  (In (5000%N, HideRegMessage) (timers p) /\ (5000 <= clock p + 1000)%N)
  /\ let shown := snd (registerForm_resume (http 201 (VObj ∅)) p) in
     hidden (regMessageDiv shown) = false
     /\ hidden (regMessageDiv (snd (elapse 1000 shown))) = true.
Proof.
  assert (Hin : In (5000%N, HideRegMessage)
                  (timers (with_clock (fun _ => 4000%N)
                             (with_timers (fun _ => [(5000%N, HideRegMessage)])
                                sample_page)))).
  { left. reflexivity. }
  assert (Hdue : (5000 <= clock (with_clock (fun _ => 4000%N)
                                   (with_timers (fun _ => [(5000%N, HideRegMessage)])
                                      sample_page)) + 1000)%N).
  { cbn. lia. }
  split; [split; [exact Hin | exact Hdue] |].
  exact (X11_older_timer_hides_new_message (http 201 (VObj ∅)) _ 5000 1000 Hin Hdue).
Defined.

(** ** The signup handler on every outcome *)

Lemma signupForm_resume_completes (r : fetch_result) (p : page) :
  fst (signupForm_resume r p) = Normal tt.
Proof.
  unfold signupForm_resume, try_catch.
  match goal with |- context [match ?b with _ => _ end] => destruct b as [[[] | e] p'] end;
    reflexivity.
Qed.

Lemma not_printable (v : value) :
  printable v = false -> nullable_DOMString v = None.
Proof.
  unfold printable. destruct (to_string v) eqn:Hv; [discriminate |].
  intros _. destruct v; cbn in *; congruence.
Qed.

Lemma signupForm_resume_accepted (r : fetch_result) (p : page) :
  signup_accepted r = true ->
  exists text,
    snd (signupForm_resume r p) =
      with_timers (fun l => l ++ [((clock p + 5000)%N, HideMessage)])
        (with_pending (fun l => l ++ [FetchActivities])
          (with_requests (fun l => l ++ [get_activities])
            (with_signupForm reset_signup
              (with_messageDiv
                 (fun _ => {| textContent := text; classList := ["success"] |}) p)))).
Proof.
  destruct r as [| resp]; [discriminate |]. cbn [signup_accepted]. intros Hr.
  apply andb_prop in Hr as [Hok Hr].
  destruct (json resp) as [body |] eqn:Hjson; [| discriminate].
  apply andb_prop in Hr as [Hbody Hmessage].
  destruct (shown_nullable _ Hmessage) as [text Htext].
  exists text. exact (signupForm_resume_ok resp body text p Hok Hjson Hbody Htext).
Qed.

Lemma signupForm_resume_error_paths (r : fetch_result) (p : page) :
  signup_accepted r = false ->
  exists text added,
    snd (signupForm_resume r p) =
      with_console (fun l => l ++ added)
        (with_timers (fun l => l ++ match added with
                                    | [] => [((clock p + 5000)%N, HideMessage)]
                                    | _ => []
                                    end)
           (with_messageDiv
              (fun _ => {| textContent := text; classList := ["error"] |}) p)).
Proof.
  intros Hr.
  assert (Hcaught :
            snd (signupForm_resume r p) =
              with_console (fun l => l ++ ["Error signing up:"])
                (with_messageDiv
                   (fun _ => {| textContent := signup_failed_text;
                                classList := ["error"] |}) p) ->
            exists text added,
              snd (signupForm_resume r p) =
                with_console (fun l => l ++ added)
                  (with_timers
                     (fun l => l ++ match added with
                                    | [] => [((clock p + 5000)%N, HideMessage)]
                                    | _ => []
                                    end)
                     (with_messageDiv
                        (fun _ => {| textContent := text; classList := ["error"] |})
                        p))).
  { intros ->. exists signup_failed_text, ["Error signing up:"].
    destruct p. page_goal. now rewrite !app_nil_r. }
  destruct r as [| resp].
  - apply Hcaught, signupForm_resume_caught_page. now left.
  - cbn [signup_accepted] in Hr. destruct (json resp) as [body |] eqn:Hjson.
    + destruct (has_properties body) eqn:Hbody.
      * destruct (ok resp) eqn:Hok.
        -- cbn [andb] in Hr. apply not_printable in Hr.
           apply Hcaught, signupForm_resume_caught_page. right.
           exists resp. split; [reflexivity |]. right. exists body. auto.
        -- destruct (nullable_DOMString
                       (js_or (own "detail" body) (VStr "An error occurred")))
             as [text |] eqn:Htext.
           ++ exists text, [].
              rewrite (signupForm_resume_rejected resp body text p Hok Hjson Hbody
                         Htext).
              destruct p. page_goal. now rewrite !app_nil_r.
           ++ apply Hcaught, signupForm_resume_caught_page. right.
              exists resp. split; [reflexivity |]. right. exists body. auto.
      * apply Hcaught, signupForm_resume_caught_page. right.
        exists resp. split; [reflexivity |]. right. exists body. auto.
    + apply Hcaught, signupForm_resume_caught_page. right. eauto.
Qed.

(** X13: a signup answered with [response.ok] false and a JSON body shows
    an error and leaves the form alone.  The text is the body's [detail]
    when that is truthy and converts to text, "An error occurred" when
    [detail] is absent or falsy, and
    "Failed to sign up. Please try again." when the body is [null], which
    has no [detail] to read, or when converting the [detail] throws. *)
Theorem X13_signup_rejected (resp : response) (body : value) (p : page) :
  ok resp = false -> json resp = Some body ->
  let p' := snd (signupForm_resume (Responded resp) p) in
  signupForm p' = signupForm p
  /\ classList (messageDiv p') = ["error"]
  /\ hidden (messageDiv p') = false
  /\ textContent (messageDiv p') =
       if has_properties body
       then if truthy (own "detail" body)
            then match to_string (own "detail" body) with
                 | Some text => text
                 | None => "Failed to sign up. Please try again."
                 end
            else "An error occurred"
       else "Failed to sign up. Please try again.".
Proof.
  intros Hok Hjson. cbn zeta. destruct (has_properties body) eqn:Hbody.
  - pose proof (js_or_text (own "detail" body) "An error occurred") as Hor.
    destruct (nullable_DOMString
                (js_or (own "detail" body) (VStr "An error occurred")))
      as [text |] eqn:Htext.
    + rewrite (signupForm_resume_rejected resp body text p Hok Hjson Hbody Htext).
      cbn. repeat split.
      destruct (truthy (own "detail" body)).
      * now rewrite <- Hor.
      * congruence.
    + rewrite (signupForm_resume_caught_page (Responded resp) p).
      * cbn. repeat split.
        destruct (truthy (own "detail" body)); [| discriminate].
        now rewrite <- Hor.
      * right. exists resp. split; [reflexivity |]. right. exists body. auto.
  - rewrite (signupForm_resume_caught_page (Responded resp) p).
    + cbn. auto.
    + right. exists resp. split; [reflexivity |]. right. exists body. auto.
Qed.

(** X14: when the signup request fails in transit, or its response is not
    JSON, the status area shows exactly
    "Failed to sign up. Please try again." with class [error], the error
    is logged, and the form keeps its values. *)
Theorem X14_signup_failure_message (r : fetch_result) (p : page) :
  r = NetworkFailure \/ (exists resp, r = Responded resp /\ json resp = None) ->
  let p' := snd (signupForm_resume r p) in
  messageDiv p' =
    {| textContent := "Failed to sign up. Please try again."; classList := ["error"] |}
  /\ hidden (messageDiv p') = false
  /\ signupForm p' = signupForm p
  /\ console p' = console p ++ ["Error signing up:"].
Proof.
  intros Hr. cbn zeta.
  rewrite (signupForm_resume_caught_page r p)
    by (destruct Hr as [-> | (resp & -> & Hjson)]; [now left | right; eauto]).
  cbn. auto.
Qed.

(** X15: a signup answered with [response.ok] true and a JSON body.  If the
    body has properties and its [message] converts to text, that text is
    shown with class [success] -- the empty text when the body has no
    [message] or a [null] one --, the form is emptied and the refresh
    request, GET /activities, is sent.  If the body is [null], reading
    [message] throws, and so does converting a [message] that has a
    [toString] of its own: the failure message is shown, the form keeps its
    values and nothing is sent. *)
Theorem X15_signup_answered_ok (resp : response) (body : value) (p : page) :
  ok resp = true -> json resp = Some body ->
  let p' := snd (signupForm_resume (Responded resp) p) in
  match (if has_properties body then nullable_DOMString (own "message" body)
         else None) with
  | Some text =>
      messageDiv p' = {| textContent := text; classList := ["success"] |}
      /\ (own "message" body = VUndefined \/ own "message" body = VNull ->
          text = "")
      /\ signupForm p' = {| email := []; activity := [] |}
      /\ requests p' =
           requests p ++ [{| url := "/activities"; method := "GET";
                             headers := []; body := None |}]
  | None =>
      messageDiv p' =
        {| textContent := "Failed to sign up. Please try again.";
           classList := ["error"] |}
      /\ signupForm p' = signupForm p
      /\ requests p' = requests p
  end.
Proof.
  intros Hok Hjson. cbn zeta. destruct (has_properties body) eqn:Hbody.
  - destruct (nullable_DOMString (own "message" body)) as [text |] eqn:Htext.
    + rewrite (signupForm_resume_ok resp body text p Hok Hjson Hbody Htext).
      cbn. repeat split. intros [H | H]; rewrite H in Htext; cbn in Htext; congruence.
    + rewrite (signupForm_resume_caught_page (Responded resp) p).
      * cbn. auto.
      * right. exists resp. split; [reflexivity |]. right. exists body. auto.
  - rewrite (signupForm_resume_caught_page (Responded resp) p).
    + cbn. auto.
    + right. exists resp. split; [reflexivity |]. right. exists body. auto.
Qed.

(** X16: whatever the signup request settles to, the handler completes
    without an exception and leaves the status area on display.  When the
    signup was accepted -- [response.ok] is true and the body has
    properties and a [message] that converts to text -- the class is
    [success], the form is emptied and one GET /activities is sent; on
    every other outcome the class is [error], the form keeps its values
    and nothing is sent.  So the list is refreshed exactly when success is
    shown. *)
Theorem X16_signup_on_any_outcome (r : fetch_result) (p : page) :
  let result := signupForm_resume r p in
  let p' := snd result in
  fst result = Normal tt
  /\ hidden (messageDiv p') = false
  /\ (if signup_accepted r
      then classList (messageDiv p') = ["success"]
           /\ signupForm p' = {| email := []; activity := [] |}
           /\ requests p' =
                requests p ++ [{| url := "/activities"; method := "GET";
                                  headers := []; body := None |}]
           /\ pending p' = pending p ++ [FetchActivities]
      else classList (messageDiv p') = ["error"]
           /\ signupForm p' = signupForm p
           /\ requests p' = requests p
           /\ pending p' = pending p).
Proof.
  cbn zeta. rewrite signupForm_resume_completes.
  destruct (signup_accepted r) eqn:Hr.
  - destruct (signupForm_resume_accepted r p Hr) as (text & ->). cbn. auto 10.
  - destruct (signupForm_resume_error_paths r p Hr) as (text & added & ->).
    cbn. auto 10.
Qed.

(** X17: the signup handler keeps to its own form: on every outcome the
    registration form and its status area, the list and the dropdown are
    as before (they change only when the refresh it may have started
    settles), and no pending timer is dropped. *)
Theorem X17_signup_frame (r : fetch_result) (p : page) :
  let p' := snd (signupForm_resume r p) in
  registerForm p' = registerForm p
  /\ regMessageDiv p' = regMessageDiv p
  /\ activitiesList p' = activitiesList p
  /\ activitySelect p' = activitySelect p
  /\ clock p' = clock p
  /\ exists added, timers p' = timers p ++ added.
Proof.
  cbn zeta. destruct (signup_accepted r) eqn:Hr.
  - destruct (signupForm_resume_accepted r p Hr) as (text & ->).
    cbn. repeat split. eauto.
  - destruct (signupForm_resume_error_paths r p Hr) as (text & added & ->).
    cbn. repeat split. eauto.
Qed.

Lemma X13_signup_rejected_witness :
  let body := VObj {["detail" := VStr "Student is already signed up"]} in
  let resp := {| status := 300; json := Some body |} in
  (ok resp = false /\ json resp = Some body)
  /\ let p' := snd (signupForm_resume (Responded resp) sample_page) in
     signupForm p' = signupForm sample_page
     /\ classList (messageDiv p') = ["error"]
     /\ hidden (messageDiv p') = false
     /\ textContent (messageDiv p') = "Student is already signed up".
Proof.
  split; [split; reflexivity |].
  exact (X13_signup_rejected
           {| status := 300;
              json := Some (VObj {["detail" := VStr "Student is already signed up"]}) |}
           (VObj {["detail" := VStr "Student is already signed up"]}) sample_page
           eq_refl eq_refl).
Defined.

Lemma X14_signup_failure_message_witness :
  (http_no_json 500 = NetworkFailure
   \/ (exists resp, http_no_json 500 = Responded resp /\ json resp = None))
  /\ let p' := snd (signupForm_resume (http_no_json 500) sample_page) in
     messageDiv p' =
       {| textContent := "Failed to sign up. Please try again.";
          classList := ["error"] |}
     /\ hidden (messageDiv p') = false
     /\ signupForm p' = signupForm sample_page
     /\ console p' = console sample_page ++ ["Error signing up:"].
Proof.
  assert (H : http_no_json 500 = NetworkFailure
              \/ (exists resp, http_no_json 500 = Responded resp /\ json resp = None)).
  { right. eexists. split; reflexivity. }
  split; [exact H |].
  exact (X14_signup_failure_message (http_no_json 500) sample_page H).
Defined.

Lemma X15_signup_answered_ok_witness :
  let resp := {| status := 299; json := Some (VObj ∅) |} in
  (ok resp = true /\ json resp = Some (VObj ∅))
  /\ let p' := snd (signupForm_resume (Responded resp) sample_page) in
     messageDiv p' = {| textContent := ""; classList := ["success"] |}
     /\ (own "message" (VObj ∅) = VUndefined \/ own "message" (VObj ∅) = VNull ->
         "" = "")
     /\ signupForm p' = {| email := []; activity := [] |}
     /\ requests p' =
          requests sample_page ++ [{| url := "/activities"; method := "GET";
                                      headers := []; body := None |}].
Proof.
  split; [split; reflexivity |].
  exact (X15_signup_answered_ok {| status := 299; json := Some (VObj ∅) |}
           (VObj ∅) sample_page eq_refl eq_refl).
Defined.

(** A rejection whose [detail] does not convert to text. *)
Example signup_detail_that_does_not_print :
  messageDiv
    (snd (signupForm_resume (http 400 (VObj {["detail" := unprintable]})) sample_page))
  = {| textContent := "Failed to sign up. Please try again.";
       classList := ["error"] |}.
Proof. vm_compute. reflexivity. Qed.

(** ** The requests *)

(** X18: submitting the registration form sends one request, POST
    /register with the JSON content type, whose body carries the four
    fields as typed -- nothing is checked, empty fields go out as empty
    strings -- under the keys [email], [first_name], [last_name] and
    [password] and no other key.  The form itself and the rest of the page
    are not touched until the answer arrives. *)
Theorem X18_register_request (p : page) :
  let result := registerForm_submit p in
  let p' := snd result in
  fst result = Normal tt
  /\ (exists sent,
        requests p' = requests p ++ [sent]
        /\ url sent = "/register"
        /\ method sent = "POST"
        /\ headers sent = [("Content-Type", "application/json")]
        /\ exists fields,
             body sent = Some (VObj fields)
             /\ fields !! "email" = Some (VStr (reg_email (registerForm p)))
             /\ fields !! "first_name" = Some (VStr (first_name (registerForm p)))
             /\ fields !! "last_name" = Some (VStr (last_name (registerForm p)))
             /\ fields !! "password" = Some (VStr (password (registerForm p)))
             /\ size fields = 4%nat)
  /\ pending p' = pending p ++ [RegisterSubmit]
  /\ registerForm p' = registerForm p
  /\ regMessageDiv p' = regMessageDiv p
  /\ timers p' = timers p.
Proof.
  cbn zeta. split; [reflexivity |]. split.
  - exists (register_request (registerForm p)).
    split; [reflexivity |]. do 3 (split; [reflexivity |]).
    eexists. split; [reflexivity |]. repeat split; reflexivity.
  - cbn. auto.
Qed.

Lemma component_char_no_slash (s : string) :
  all_chars component_char s = true -> all_chars no_slash s = true.
Proof.
  induction s as [| c s IH]; [reflexivity |]. cbn [all_chars].
  intros H. apply andb_prop in H as [Hc Hs]. rewrite (IH Hs), andb_true_r.
  revert Hc. destruct c as [[] [] [] [] [] [] [] []]; cbn;
    intros; try discriminate; reflexivity.
Qed.

Lemma split_at_slash (a a' r r' : string) :
  all_chars no_slash a = true -> all_chars no_slash a' = true ->
  a +:+ String "/" r = a' +:+ String "/" r' ->
  a = a' /\ r = r'.
Proof.
  revert a'. induction a as [| c a IH]; intros [| c' a'] Ha Ha' H.
  - injection H as ->. auto.
  - injection H as <- _. cbn in Ha'. discriminate.
  - injection H as -> _. cbn in Ha. discriminate.
  - injection H as -> H. cbn [all_chars] in Ha, Ha'.
    apply andb_prop in Ha as [_ Ha]. apply andb_prop in Ha' as [_ Ha'].
    destruct (IH a' Ha Ha' H) as [-> ->]. auto.
Qed.

Lemma escape_octets_inj (s s' : string) :
  escape_octets s = escape_octets s' -> s = s'.
Proof.
  intros H. rewrite <- (percent_decode_escape_octets s), H.
  apply percent_decode_escape_octets.
Qed.

(** The address the handler sends to is [signup_url] of the UTF-8 forms of
    the two values. *)
Lemma signupForm_submit_url (p : page) (activity_octets email_octets : string) :
  utf8 (activity (signupForm p)) = Some activity_octets ->
  utf8 (email (signupForm p)) = Some email_octets ->
  requests (snd (signupForm_submit p)) =
    requests p ++ [{| url := signup_url activity_octets email_octets;
                      method := "POST"; headers := []; body := None |}].
Proof.
  intros Ha He. unfold signupForm_submit, encodeURIComponent. js_unfold.
  cbn. rewrite Ha, He. reflexivity.
Qed.

(** X19: the address of the signup request determines both values: two
    submissions with the same address have the same activity and the same
    e-mail address.  No value, whatever characters it holds, can pass for
    another pair of values. *)
Theorem X19_signup_url_determines_values (activity1 email1 activity2 email2 : string) :
  signup_url activity1 email1 = signup_url activity2 email2 ->
  activity1 = activity2 /\ email1 = email2.
Proof.
  unfold signup_url. intros H.
  apply (inj (String.app "/activities/")) in H.
  change ("/signup?email=" +:+ escape_octets email1)
    with (String "/" ("signup?email=" +:+ escape_octets email1)) in H.
  change ("/signup?email=" +:+ escape_octets email2)
    with (String "/" ("signup?email=" +:+ escape_octets email2)) in H.
  apply split_at_slash in H as [Ha He];
    try (apply component_char_no_slash, escape_octets_safe).
  apply (inj (String.app "signup?email=")) in He.
  split; now apply escape_octets_inj.
Qed.

Lemma escape_octets_unreserved (s : string) :
  all_chars unreserved s = true -> escape_octets s = s.
Proof.
  induction s as [| c s IH]; [reflexivity |]. cbn [all_chars escape_octets].
  intros H. apply andb_prop in H as [Hc Hs]. now rewrite Hc, (IH Hs).
Qed.

(** X20: values made of letters, digits and [- _ . ! ~ * ' ( )] only, such
    as a numeric activity id, appear in the address as they are. *)
Theorem X20_signup_url_plain_values (activity email : string) :
  all_chars unreserved activity = true -> all_chars unreserved email = true ->
  signup_url activity email = "/activities/" +:+ activity +:+ "/signup?email=" +:+ email.
Proof.
  intros Ha He. unfold signup_url.
  now rewrite (escape_octets_unreserved _ Ha), (escape_octets_unreserved _ He).
Qed.

Lemma X19_signup_url_determines_values_witness :
  signup_url "1/2" "ann lee@example.org" = signup_url "1/2" "ann lee@example.org"
  /\ "1/2" = "1/2" /\ "ann lee@example.org" = "ann lee@example.org".
Proof.
  split; [reflexivity |].
  exact (X19_signup_url_determines_values "1/2" "ann lee@example.org"
           "1/2" "ann lee@example.org" eq_refl).
Defined.

Lemma X20_signup_url_plain_values_witness :
  (all_chars unreserved "12" = true /\ all_chars unreserved "ann.lee" = true)
  /\ signup_url "12" "ann.lee" =
       "/activities/" +:+ "12" +:+ "/signup?email=" +:+ "ann.lee".
Proof.
  split; [split; reflexivity |].
  exact (X20_signup_url_plain_values "12" "ann.lee" eq_refl eq_refl).
Defined.

(** ** Whole exchanges *)

Lemma signupForm_submit_sends (p : page) (id mail : string) :
  encodeURIComponent (activity (signupForm p)) = Some id ->
  encodeURIComponent (email (signupForm p)) = Some mail ->
  snd (signupForm_submit p) =
    with_pending (fun l => l ++ [SignupSubmit])
      (with_requests
         (fun l => l ++ [{| url := "/activities/" +:+ id +:+ "/signup?email=" +:+ mail;
                            method := "POST"; headers := []; body := None |}]) p).
Proof.
  intros Hid Hmail. unfold signupForm_submit. js_unfold. cbn.
  rewrite Hid. cbn. rewrite Hmail. reflexivity.
Qed.

(** X21: a signup from submission to refreshed list.  With no other request
    under way and two values that [encodeURIComponent] accepts, the
    submission, the server's acceptance with a [message] that converts to
    text and the answer to the refresh, an array whose elements all
    render, leave the page with: the two requests sent, in this order, the
    POST to the signup address and the GET of the activities; no function
    waiting; the form emptied; the server's message on display; and the
    list showing one card per element of the refreshed array. *)
Theorem X21_signup_then_refresh (StringToNumber : string -> option safe_integer)
    (accepted listing : response) (body : value) (text id mail : string)
    (acts : list value) (p : page) :
  pending p = [] ->
  encodeURIComponent (activity (signupForm p)) = Some id ->
  encodeURIComponent (email (signupForm p)) = Some mail ->
  ok accepted = true -> json accepted = Some body -> has_properties body = true ->
  nullable_DOMString (own "message" body) = Some text ->
  json listing = Some (VArr acts) ->
  forallb (renders StringToNumber) acts = true ->
  let p' := run StringToNumber
              [SubmitSignup; Settled 0 (Responded accepted);
               Settled 0 (Responded listing)] p in
  requests p' =
    requests p ++ [{| url := "/activities/" +:+ id +:+ "/signup?email=" +:+ mail;
                      method := "POST"; headers := []; body := None |};
                   {| url := "/activities"; method := "GET";
                      headers := []; body := None |}]
  /\ pending p' = []
  /\ signupForm p' = {| email := []; activity := [] |}
  /\ textContent (messageDiv p') = text
  /\ hidden (messageDiv p') = false
  /\ markup (activitiesList p') = ""
  /\ length (appended (activitiesList p')) = length acts.
Proof.
  intros Hpending Hid Hmail Hok Hjson Hbody Htext Hlisting Hall. cbn zeta.
  destruct (renders_cards StringToNumber acts Hall) as [Hcards _].
  unfold run. cbn [foldl].
  assert (Hsubmit : step StringToNumber p SubmitSignup = snd (signupForm_submit p))
    by reflexivity.
  rewrite (step_settled StringToNumber (step StringToNumber p SubmitSignup) 0
             SignupSubmit)
    by (rewrite Hsubmit, (signupForm_submit_sends p id mail Hid Hmail);
        cbn; now rewrite Hpending).
  cbn [resume].
  rewrite (step_settled StringToNumber _ 0 FetchActivities)
    by (rewrite (signupForm_resume_ok accepted body text _ Hok Hjson Hbody Htext),
          Hsubmit, (signupForm_submit_sends p id mail Hid Hmail);
        cbn; now rewrite Hpending).
  cbn [resume].
  rewrite (fetchActivities_resume_array StringToNumber listing acts _ Hlisting), Hall.
  rewrite (signupForm_resume_ok accepted body text _ Hok Hjson Hbody Htext).
  rewrite Hsubmit, (signupForm_submit_sends p id mail Hid Hmail).
  cbn. rewrite Hpending, <- app_assoc. cbn.
  rewrite (omap_length_all _ acts Hcards). auto 10.
Qed.

Lemma X21_signup_then_refresh_witness :
  let accepted := {| status := 200;
                     json := Some (VObj {["message" := VStr "Signed up"]}) |} in
  let listing := {| status := 200; json := Some (VArr [chess]) |} in
  (pending sample_page = []
   /\ encodeURIComponent (activity (signupForm sample_page)) = Some "1%2F2"
   /\ encodeURIComponent (email (signupForm sample_page))
      = Some "ann%20lee%40example.org"
   /\ ok accepted = true
   /\ json accepted = Some (VObj {["message" := VStr "Signed up"]})
   /\ has_properties (VObj {["message" := VStr "Signed up"]}) = true
   /\ nullable_DOMString (own "message" (VObj {["message" := VStr "Signed up"]}))
      = Some "Signed up"
   /\ json listing = Some (VArr [chess])
   /\ forallb (renders no_text_numbers) [chess] = true)
  /\ let p' := run no_text_numbers
                 [SubmitSignup; Settled 0 (Responded accepted);
                  Settled 0 (Responded listing)] sample_page in
     requests p' =
       [{| url := "/activities/1%2F2/signup?email=ann%20lee%40example.org";
           method := "POST"; headers := []; body := None |};
        {| url := "/activities"; method := "GET"; headers := []; body := None |}]
     /\ pending p' = []
     /\ signupForm p' = {| email := []; activity := [] |}
     /\ textContent (messageDiv p') = "Signed up"
     /\ hidden (messageDiv p') = false
     /\ markup (activitiesList p') = ""
     /\ length (appended (activitiesList p')) = 1%nat.
Proof.
  split; [repeat split; reflexivity |].
  exact (X21_signup_then_refresh no_text_numbers
           {| status := 200; json := Some (VObj {["message" := VStr "Signed up"]}) |}
           {| status := 200; json := Some (VArr [chess]) |}
           (VObj {["message" := VStr "Signed up"]}) "Signed up"
           "1%2F2" "ann%20lee%40example.org" [chess] sample_page
           eq_refl eq_refl eq_refl eq_refl eq_refl eq_refl eq_refl eq_refl eq_refl).
Defined.

(** X22: the fields are read when the form is submitted, and reset when the
    answer arrives.  What a visitor types into the registration form while
    the request is under way does not change the request, which carries
    the values submitted, and is wiped when the registration is accepted. *)
Theorem X22_edits_while_waiting (StringToNumber : string -> option safe_integer)
    (typed : register_fields) (resp : response) (body : value) (p : page) :
  pending p = [] -> ok resp = true -> json resp = Some body ->
  let p' := run StringToNumber
              [SubmitRegister; EditRegister typed; Settled 0 (Responded resp)] p in
  requests p' = requests p ++ [register_request (registerForm p)]
  /\ registerForm p' = empty_register_fields
  /\ textContent (regMessageDiv p') = "Registration successful!".
Proof.
  intros Hpending Hok Hjson. cbn zeta. unfold run. cbn [foldl].
  rewrite (step_settled StringToNumber _ 0 RegisterSubmit)
    by (cbn; now rewrite Hpending).
  cbn [resume]. rewrite (registerForm_resume_ok resp body _ Hok Hjson).
  cbn. auto.
Qed.

Lemma X22_edits_while_waiting_witness :
  let typed := {| reg_email := "bob@example.org"; first_name := "Bob";
                  last_name := "Ray"; password := "hunter2" |} in
  let resp := {| status := 201; json := Some (VObj ∅) |} in
  (pending sample_page = [] /\ ok resp = true /\ json resp = Some (VObj ∅))
  /\ let p' := run no_text_numbers
                 [SubmitRegister; EditRegister typed; Settled 0 (Responded resp)]
                 sample_page in
     requests p' = requests sample_page ++ [register_request (registerForm sample_page)]
     /\ registerForm p' = empty_register_fields
     /\ textContent (regMessageDiv p') = "Registration successful!".
Proof.
  split; [repeat split; reflexivity |].
  exact (X22_edits_while_waiting no_text_numbers
           {| reg_email := "bob@example.org"; first_name := "Bob";
              last_name := "Ray"; password := "hunter2" |}
           {| status := 201; json := Some (VObj ∅) |} (VObj ∅) sample_page
           eq_refl eq_refl eq_refl).
Defined.

(** ** Last write wins *)

(** X23: a handler overwrites its status area completely: the text, the
    classes and the visibility it leaves depend on the outcome alone, not
    on what the area showed before.  Of two overlapping submissions the
    answer that arrives last decides what is displayed. *)
Theorem X23_message_depends_on_outcome_only (r : fetch_result) (p q : page) :
  regMessageDiv (snd (registerForm_resume r p))
  = regMessageDiv (snd (registerForm_resume r q))
  /\ messageDiv (snd (signupForm_resume r p))
     = messageDiv (snd (signupForm_resume r q)).
Proof.
  split.
  - destruct r as [| resp].
    + now rewrite !(registerForm_resume_caught_page NetworkFailure) by now left.
    + destruct (json resp) as [body |] eqn:Hjson.
      * destruct (ok resp) eqn:Hok.
        -- now rewrite !(registerForm_resume_ok resp body _ Hok Hjson).
        -- destruct (has_properties body) eqn:Hbody.
           ++ destruct (nullable_DOMString
                          (js_or (own "detail" body) (VStr "Registration failed")))
                as [text |] eqn:Htext.
              ** now rewrite !(registerForm_resume_rejected resp body text _ Hok
                                 Hjson Hbody Htext).
              ** now rewrite !(registerForm_resume_rejected_caught resp body _ Hok
                                 Hjson (or_intror Htext)).
           ++ now rewrite !(registerForm_resume_rejected_caught resp body _ Hok
                              Hjson (or_introl Hbody)).
      * now rewrite !(registerForm_resume_caught_page (Responded resp))
          by (right; eauto).
  - destruct (signup_accepted r) eqn:Hr.
    + destruct r as [| resp]; [discriminate |]. cbn [signup_accepted] in Hr.
      apply andb_prop in Hr as [Hok Hr].
      destruct (json resp) as [body |] eqn:Hjson; [| discriminate].
      apply andb_prop in Hr as [Hbody Hmessage].
      destruct (shown_nullable _ Hmessage) as [text Htext].
      now rewrite !(signupForm_resume_ok resp body text _ Hok Hjson Hbody Htext).
    + assert (Hcause :
                (exists resp body text,
                   r = Responded resp /\ ok resp = false /\ json resp = Some body
                   /\ has_properties body = true
                   /\ nullable_DOMString
                        (js_or (own "detail" body) (VStr "An error occurred"))
                      = Some text)
                \/ forall p0,
                     snd (signupForm_resume r p0) =
                       with_console (fun l => l ++ ["Error signing up:"])
                         (with_messageDiv
                            (fun _ => {| textContent := signup_failed_text;
                                         classList := ["error"] |}) p0)).
      { destruct r as [| resp].
        - right. intros p0. apply signupForm_resume_caught_page. now left.
        - cbn [signup_accepted] in Hr.
          destruct (json resp) as [body |] eqn:Hjson.
          + destruct (has_properties body) eqn:Hbody.
            * destruct (ok resp) eqn:Hok.
              -- cbn [andb] in Hr. apply not_printable in Hr.
                 right. intros p0. apply signupForm_resume_caught_page. right.
                 exists resp. split; [reflexivity |]. right. exists body. auto.
              -- destruct (nullable_DOMString
                             (js_or (own "detail" body) (VStr "An error occurred")))
                   as [text |] eqn:Htext.
                 ++ left. exists resp, body, text. auto.
                 ++ right. intros p0. apply signupForm_resume_caught_page. right.
                    exists resp. split; [reflexivity |]. right. exists body. auto.
            * right. intros p0. apply signupForm_resume_caught_page. right.
              exists resp. split; [reflexivity |]. right. exists body. auto.
          + right. intros p0. apply signupForm_resume_caught_page. right. eauto. }
      destruct Hcause as [(resp & body & text & -> & Hok & Hjson & Hbody & Htext) | H].
      * now rewrite !(signupForm_resume_rejected resp body text _ Hok Hjson Hbody
                        Htext).
      * now rewrite !H.
Qed.

(** X24: an activity without [id] or [name], in an array whose elements
    all render.  Its option gets the value "undefined" when [id] is
    missing, and an empty label when [name] is missing -- while the
    heading of its card then displays "undefined", above the description,
    the schedule and the difference of the two counts. *)
Theorem X24_missing_id_or_name (StringToNumber : string -> option safe_integer)
    (resp : response) (acts : list value) (p : page) (i : nat)
    (fields : gmap string value) (description schedule : string)
    (m c : safe_integer) :
  json resp = Some (VArr acts) ->
  forallb (renders StringToNumber) acts = true ->
  acts !! i = Some (VObj fields) ->
  to_string (own "description" (VObj fields)) = Some description ->
  plain description = true ->
  to_string (own "schedule" (VObj fields)) = Some schedule ->
  plain schedule = true ->
  fields !! "max_participants" = Some (VNum m) ->
  fields !! "current_participants" = Some (VNum c) ->
  let p' := snd (fetchActivities_resume StringToNumber (Responded resp) p) in
  exists option card,
    activitySelect p' !! (length (activitySelect p) + i)%nat = Some option
    /\ appended (activitiesList p') !! i = Some card
    /\ (fields !! "id" = None -> option_value option = "undefined")
    /\ (fields !! "name" = None ->
        option_textContent option = ""
        /\ text_content (innerHTML card) =
             LF +:+ "          undefined" +:+
             LF +:+ "          " +:+ description +:+
             LF +:+ "          Schedule: " +:+ schedule +:+
             LF +:+ "          Availability: "
             +:+ Z_to_string (round_to_double (integer m - integer c))
             +:+ " spots left" +:+
             LF +:+ "        ").
Proof.
  intros Hjson Hall Hi Hdesc Hpd Hsched Hps Hm Hc. cbn zeta.
  destruct (renders_cards StringToNumber acts Hall) as [Hcards Hoptions].
  pose proof (forallb_lookup _ _ _ _ Hall Hi) as Hrenders.
  rewrite (fetchActivities_resume_array StringToNumber resp acts p Hjson), Hall.
  unfold renders in Hrenders.
  destruct (card_of StringToNumber (VObj fields)) as [card |] eqn:Hcard;
    [| discriminate].
  destruct (option_of (VObj fields)) as [option |] eqn:Hoption; [| discriminate].
  exists option, card. cbn. split.
  { rewrite lookup_app_r by lia.
    replace (length (activitySelect p) + i - length (activitySelect p))%nat
      with i by lia.
    now rewrite (omap_lookup_all _ acts i (VObj fields) Hoptions Hi). }
  split.
  { now rewrite (omap_lookup_all _ acts i (VObj fields) Hcards Hi). }
  split.
  - intros Hid. revert Hoption. unfold option_of, own. cbn [has_properties].
    rewrite Hid. cbn.
    destruct (nullable_DOMString (default VUndefined (fields !! "name")));
      [| discriminate].
    now intros [= <-].
  - intros Hname. split.
    + revert Hoption. unfold option_of, own. cbn [has_properties].
      rewrite Hname. cbn.
      destruct (to_string (default VUndefined (fields !! "id"))); [| discriminate].
      now intros [= <-].
    + revert Hcard. unfold card_of. cbn [has_properties].
      rewrite Hdesc, Hsched. unfold own, js_minus. rewrite Hm, Hc, Hname. cbn.
      intros [= <-]. cbn [innerHTML].
      now rewrite text_content_card_markup by auto using plain_Z_to_string.
Qed.

(** An element with a description and two counts only; the difference of
    the counts, 2^53 + 1, is no double and is displayed as 2^53. *)
Lemma X24_missing_id_or_name_witness :
  let fields : gmap string value :=
    <["description" := VStr "No name yet"]>
      (<["max_participants" := VNum #9007199254740991]>
      (<["current_participants" := VNum #(-2)]> ∅)) in
  let resp := {| status := 200; json := Some (VArr [chess; VObj fields]) |} in
  (json resp = Some (VArr [chess; VObj fields])
   /\ forallb (renders no_text_numbers) [chess; VObj fields] = true
   /\ [chess; VObj fields] !! 1%nat = Some (VObj fields)
   /\ to_string (own "description" (VObj fields)) = Some "No name yet"
   /\ plain "No name yet" = true
   /\ to_string (own "schedule" (VObj fields)) = Some "undefined"
   /\ plain "undefined" = true
   /\ fields !! "max_participants" = Some (VNum #9007199254740991)
   /\ fields !! "current_participants" = Some (VNum #(-2)))
  /\ let p' := snd (fetchActivities_resume no_text_numbers (Responded resp) sample_page) in
     exists option card,
       activitySelect p' !! 1%nat = Some option
       /\ appended (activitiesList p') !! 1%nat = Some card
       /\ (fields !! "id" = None -> option_value option = "undefined")
       /\ (fields !! "name" = None ->
           option_textContent option = ""
           /\ text_content (innerHTML card) =
                LF +:+ "          undefined" +:+
                LF +:+ "          No name yet" +:+
                LF +:+ "          Schedule: undefined" +:+
                LF +:+ "          Availability: 9007199254740992 spots left" +:+
                LF +:+ "        ").
Proof.
  split; [repeat split; reflexivity |].
  exact (X24_missing_id_or_name no_text_numbers
           {| status := 200;
              json := Some (VArr [chess;
                                  VObj (<["description" := VStr "No name yet"]>
                                         (<["max_participants" := VNum #9007199254740991]>
                                         (<["current_participants" := VNum #(-2)]> ∅)))]) |}
           [chess; VObj (<["description" := VStr "No name yet"]>
                          (<["max_participants" := VNum #9007199254740991]>
                          (<["current_participants" := VNum #(-2)]> ∅)))]
           sample_page 1%nat
           (<["description" := VStr "No name yet"]>
              (<["max_participants" := VNum #9007199254740991]>
              (<["current_participants" := VNum #(-2)]> ∅)))
           "No name yet" "undefined" #9007199254740991 #(-2)
           eq_refl eq_refl eq_refl eq_refl eq_refl eq_refl eq_refl eq_refl eq_refl).
Defined.

(** The card and the option of an element with a description only. *)
Example nameless_activity :
  let p' := snd (fetchActivities_resume no_text_numbers
                   (http 200 (VArr [VObj {["description" := VStr "No name yet"]}]))
                   sample_page) in
  activitySelect p' = [{| option_value := "undefined"; option_textContent := "" |}]
  /\ text_content <$> (innerHTML <$> appended (activitiesList p')) =
       [LF +:+ "          undefined" +:+
        LF +:+ "          No name yet" +:+
        LF +:+ "          Schedule: undefined" +:+
        LF +:+ "          Availability: NaN spots left" +:+
        LF +:+ "        "].
Proof. vm_compute. auto. Qed.
